(** * bmcweb logging: a shallow embedding of [boost_formatters.hpp] and the
    logger that follows it in the same source file.

    The development follows the source top-down: the formatting engine the
    adapters and the logger call into, the adapters ([std::formatter]
    specialisations), the severity enumeration and its two tables, the
    process-wide threshold, the emission routine [vlog] and the per-level
    entry points.  Theorems come after all definitions. *)

From Stdlib Require Import ZArith NArith List Bool Ascii String DecimalString Lia.
From Stdlib Require Import DecimalN.
From Stdlib Require HexString.
Import ListNotations.

Local Open Scope string_scope.
Local Open Scope Z_scope.

(** ** Characters and strings *)

(** ['\n'], as appended by [logLocation += '\n']. *)
Definition newline : string := String (ascii_of_nat 10) EmptyString.

(** [std::string_view] and [std::string] values are modelled by the
    characters they hold. *)
Module StringView.

(** [std::string_view::npos], the largest [size_t]. *)
Definition npos : Z := 2 ^ 64 - 1.

Definition size (s : string) : Z := Z.of_nat (String.length s).

Definition empty (s : string) : bool :=
  match s with
  | EmptyString => true
  | String _ _ => false
  end.

Fixpoint drop (n : nat) (s : string) : string :=
  match n, s with
  | O, _ => s
  | S _, EmptyString => EmptyString
  | S n', String _ s' => drop n' s'
  end.

Fixpoint take (n : nat) (s : string) : string :=
  match n, s with
  | O, _ => EmptyString
  | S _, EmptyString => EmptyString
  | S n', String c s' => String c (take n' s')
  end.

Fixpoint contains (c : ascii) (s : string) : bool :=
  match s with
  | EmptyString => false
  | String a s' => Ascii.eqb a c || contains c s'
  end.

(** Scan left to right, remembering the last position where [c] stood;
    [last] is what is returned when no later occurrence is found. *)
Fixpoint rfind_from (s : string) (c : ascii) (i : Z) (last : Z) : Z :=
  match s with
  | EmptyString => last
  | String a s' => rfind_from s' c (i + 1) (if Ascii.eqb a c then i else last)
  end.

(** [s.rfind(c)]: the position of the last [c] in [s], [npos] when there
    is none. *)
Definition rfind (s : string) (c : ascii) : Z := rfind_from s c 0 npos.

End StringView.

(** ** Exceptions and results *)

Inductive exception : Type :=
| format_error      (* std::format_error, fmt::format_error *)
| out_of_range      (* std::out_of_range *)
| other_exception.  (* any other exception type a formatter may throw *)

Inductive result (A : Type) : Type :=
| Ok (a : A)
| Throw (e : exception).

Arguments Ok {A} a.
Arguments Throw {A} e.

(** [s.substr(pos)]: throws [std::out_of_range] when [pos > size()]. *)
Definition substr (s : string) (pos : Z) : result string :=
  if StringView.size s <? pos then Throw out_of_range
  else Ok (StringView.drop (Z.to_nat pos) s).

(** [s.remove_prefix(n)]; the caller guarantees [n <= size()]. *)
Definition remove_prefix (s : string) (n : nat) : string := StringView.drop n s.

(** ** Decimal rendering *)

(** [std::to_string] on an unsigned value, and the [%u] conversion. *)
Definition to_string_unsigned (n : N) : string :=
  NilZero.string_of_uint (N.to_uint n).

(** [std::to_string] on a signed value, the default rendering of an integer
    by a [{}] field, and the [%d] conversion. *)
Definition to_string (z : Z) : string :=
  NilZero.string_of_int (Z.to_int z).

Definition is_digit (c : ascii) : bool :=
  (48 <=? nat_of_ascii c)%nat && (nat_of_ascii c <=? 57)%nat.

Fixpoint all_digits (s : string) : bool :=
  match s with
  | EmptyString => true
  | String c s' => is_digit c && all_digits s'
  end.

(** The number a decimal numeral denotes, when the text is one. *)
Definition decimal_value (s : string) : option N :=
  option_map N.of_uint (NilZero.uint_of_string s).

(** ** Fixed-width casts *)

Definition INT_MAX : Z := 2 ^ 31 - 1.

(** [static_cast<int>] of a [size_t]: the low 32 bits, read as signed. *)
Definition to_int (z : Z) : Z :=
  let w := z mod 2 ^ 32 in
  if w <? 2 ^ 31 then w else w - 2 ^ 32.

(** [static_cast<unsigned>]: the low 32 bits. *)
Definition to_unsigned (z : Z) : Z := z mod 2 ^ 32.

(** ** The formatting engine

    [std::format], [std::format_to] and [fmt::vformat] belong to the
    standard library and to {fmt}, not to this repository.  What the source
    relies on is their replacement-field language.  The model runs templates
    made of literal text, the escapes [{{] and [}}] and automatic fields
    [{}]; a template that uses an explicit argument index or a format
    specification is handed, whole, to [library_fields], the library's own
    treatment of it, which is a parameter of the development. *)

Module Format.

Definition lbrace : ascii := "{"%char.
Definition rbrace : ascii := "}"%char.

(** Every ['{'] is followed by ['{'] or ['}'], or ends the template. *)
Fixpoint plain (tpl : string) : bool :=
  match tpl with
  | EmptyString => true
  | String c rest =>
      if Ascii.eqb c lbrace then
        match rest with
        | EmptyString => true
        | String d rest' =>
            (Ascii.eqb d lbrace || Ascii.eqb d rbrace) && plain rest'
        end
      else plain rest
  end.

Section Engine.

Context {Arg : Type}.

(** [formatter<T>::format(value, ctx)]: what it appends to [ctx.out()],
    or the exception it throws. *)
Variable formatter : Arg -> string -> result string.

(** One pass over the template; [out] is the text produced so far and
    [args] the arguments not yet consumed by a field. *)
Fixpoint fields (tpl : string) (args : list Arg) (out : string)
  : result string :=
  match tpl with
  | EmptyString => Ok out
  | String c rest =>
      if Ascii.eqb c lbrace then
        match rest with
        | EmptyString => Throw format_error
        | String d rest' =>
            if Ascii.eqb d lbrace then
              fields rest' args (out ++ String lbrace EmptyString)
            else if Ascii.eqb d rbrace then
              match args with
              | [] => Throw format_error
              | a :: args' =>
                  match formatter a out with
                  | Ok out' => fields rest' args' out'
                  | Throw e => Throw e
                  end
              end
            else Throw format_error
        end
      else if Ascii.eqb c rbrace then
        match rest with
        | EmptyString => Throw format_error
        | String d rest' =>
            if Ascii.eqb d rbrace then
              fields rest' args (out ++ String rbrace EmptyString)
            else Throw format_error
        end
      else fields rest args (out ++ String c EmptyString)
  end.

End Engine.

(** The library's treatment of a template outside the modelled language,
    for any argument type and its formatter. *)
Definition library : Type :=
  forall Arg : Type,
    (Arg -> string -> result string) ->
    string -> list Arg -> string -> result string.

Section Calls.

Variable library_fields : library.

Context {Arg : Type}.
Variable formatter : Arg -> string -> result string.

(** [std::format_to(out, tpl, args...)] *)
Definition format_to (out : string) (tpl : string) (args : list Arg)
  : result string :=
  if plain tpl then fields formatter tpl args out
  else library_fields Arg formatter tpl args out.

(** [std::format(tpl, args...)], [fmt::vformat(tpl, args)] *)
Definition format (tpl : string) (args : list Arg) : result string :=
  format_to EmptyString tpl args.

End Calls.

End Format.

(** ** Arguments the engine renders itself *)

(** A raw pointer is its bit pattern, a machine word. *)
Definition pointer : Type := N.

Inductive std_arg : Type :=
| IntArg (z : Z)            (* int, unsigned, uint_least32_t, ... *)
| StringArg (s : string)    (* std::string, std::string_view, const char* *)
| PointerArg (p : pointer). (* const void*, also void* and nullptr_t *)

(** The library's formatters for those types, under an empty specification:
    integers in decimal, strings as they are, and a pointer, which both
    [std::format] and {fmt} hold as a [const void*] and render themselves, as
    its address in hexadecimal after [0x]. *)
Definition std_formatter (a : std_arg) (out : string) : result string :=
  match a with
  | IntArg z => Ok (out ++ to_string z)
  | StringArg s => Ok (out ++ s)
  | PointerArg p => Ok (out ++ HexString.of_N (p mod 2 ^ 64))
  end.

(** ** Adapted value types (boost_formatters.hpp) *)

(** [boost::system::error_code]: only [what()] is used. *)
Record error_code : Type := { what : string }.

(** [boost::urls::grammar::string_view_base]: [data()] is the character
    memory from the view's first character on (it may run past the view),
    [size()] the number of characters the view spans. *)
Record string_view_base : Type := { data : string; size : nat }.

(** [boost::core::string_view] *)
Record core_string_view : Type := { characters : string }.

(** [boost::urls::url_view_base]: [buffer()] is the serialized URL. *)
Record url_view_base : Type := { buffer : core_string_view }.

(** [std::string_view(ptr, n)]: the first [n] characters at [ptr]. *)
Definition string_view_of (ptr : string) (n : nat) : string :=
  StringView.take n ptr.

(** [std::string_view(v)] for a [boost::core::string_view] [v]. *)
Definition to_std_string_view (v : core_string_view) : string := characters v.

(** [std::bit_cast<size_t>(ptr)] *)
Definition bit_cast_size_t (ptr : pointer) : N := (ptr mod 2 ^ 64)%N.

(** [std::bit_cast<const void*>(p)] *)
Definition bit_cast_void_ptr (p : N) : pointer := (p mod 2 ^ 64)%N.

(** [crow::logPtr]: the [const void*] with the bits of [p]. *)
Definition logPtr (p : N) : pointer := bit_cast_void_ptr p.

Section Adapters.

Variable library_fields : Format.library.

Definition std_format_to := Format.format_to library_fields std_formatter.

(** [std::formatter<ErrorCodeType>::format] (and its [fmt::] twin) *)
Definition formatter_ErrorCodeType_format (ec : error_code) (out : string)
  : result string :=
  std_format_to out "{}" [StringArg (what ec)].

(** [std::formatter<StringView>::format] for types derived from
    [boost::urls::grammar::string_view_base] (and its [fmt::] twin) *)
Definition formatter_StringView_format (msg : string_view_base)
  (out : string) : result string :=
  std_format_to out "{}" [StringArg (string_view_of (data msg) (size msg))].

(** [std::formatter<UrlBase>::format] (and its [fmt::] twin) *)
Definition formatter_UrlBase_format (msg : url_view_base) (out : string)
  : result string :=
  std_format_to out "{}" [StringArg (to_std_string_view (buffer msg))].

(** [std::formatter<StringView>::format] for types derived from
    [boost::core::string_view] (and its [fmt::] twin) *)
Definition formatter_core_StringView_format (msg : core_string_view)
  (out : string) : result string :=
  std_format_to out "{}" [StringArg (to_std_string_view msg)].

(** [std::formatter<void*>::format], defined when [__GNUC__ > 12].  The
    specialisation is keyed on [void*]; what a log call passes is the
    [const void*] of [logPtr], a [PointerArg], which the library renders
    without consulting it. *)
Definition formatter_void_ptr_format (ptr : pointer) (out : string)
  : result string :=
  std_format_to out "{}"
    [StringArg (to_string_unsigned (bit_cast_size_t ptr))].

(** What a log call may pass: [Args&&...] ranges over every formattable
    type.  [Custom r] stands for a value of a type with a formatter of its
    own, given by what that formatter does: append a text or throw. *)
Inductive format_arg : Type :=
| Std (a : std_arg)
| ErrorCodeType (ec : error_code)
| StringViewBase (msg : string_view_base)
| UrlBase (msg : url_view_base)
| CoreStringView (msg : core_string_view)
| Custom (r : result string).

(** Formatter selection by argument type. *)
Definition formatter (a : format_arg) (out : string) : result string :=
  match a with
  | Std a => std_formatter a out
  | ErrorCodeType ec => formatter_ErrorCodeType_format ec out
  | StringViewBase msg => formatter_StringView_format msg out
  | UrlBase msg => formatter_UrlBase_format msg out
  | CoreStringView msg => formatter_core_StringView_format msg out
  | Custom (Ok text) => Ok (out ++ text)
  | Custom (Throw e) => Throw e
  end.

(** [std::format] / [fmt::vformat] over log-call arguments. *)
Definition vformat := Format.format library_fields formatter.

End Adapters.

(** ** The logger *)

Module crow.

(** [enum class LogLevel] has underlying type [int]: a [LogLevel] is a
    value of that type, and the seven enumerators name 0 to 6.  The code
    compares levels with [<] and [==] and converts an array index with
    [static_cast<LogLevel>], all of which act on the underlying value. *)
Definition LogLevel : Type := Z.

Definition Disabled : LogLevel := 0.
Definition Critical : LogLevel := 1.
Definition Error : LogLevel := 2.
Definition Warning : LogLevel := 3.
Definition Info : LogLevel := 4.
Definition Debug : LogLevel := 5.
Definition Enabled : LogLevel := 6.

(** [static_cast<LogLevel>(i)] *)
Definition static_cast_LogLevel (i : Z) : LogLevel := i.

(** The table inside [toSystemdLevel]. *)
Definition mapping : list (LogLevel * Z) :=
  [ (Critical, 2); (Error, 3); (Warning, 4); (Info, 6); (Debug, 6) ].

Definition toSystemdLevel (level : LogLevel) : Z :=
  match List.find (fun elem => fst elem =? level) mapping with
  | None => 6
  | Some it => snd it
  end.

Definition mapLogLevelFromName : list string :=
  [ "DISABLED"; "CRITICAL"; "ERROR"; "WARNING"; "INFO"; "DEBUG"; "ENABLED" ].

(** [std::ranges::find(range, value) - range.begin()]: the index of the
    first element equal to [value]; [None] stands for [range.end()]. *)
Fixpoint ranges_find (range : list string) (value : string) (i : Z)
  : option Z :=
  match range with
  | [] => None
  | x :: range' =>
      if String.eqb x value then Some i else ranges_find range' value (i + 1)
  end.

Definition getLogLevelFromName (name : string) : LogLevel :=
  match ranges_find mapLogLevelFromName name 0 with
  | Some iter => static_cast_LogLevel iter
  | None => Disabled
  end.

(** [std::source_location]: the two members the logger reads. *)
Record source_location : Type := { file_name : string; line : Z }.

(** The state of the process the logger touches: the function-local
    static of [getBmcwebCurrentLoggingLevel] ([None] until its initialiser
    has run), a count of how many times that initialiser ran, and the
    bytes handed to [stdout]. *)
Record Process : Type := {
  static_level : option LogLevel;
  initialisations : nat;
  stdout : string
}.

(** The process before anything has run. *)
Definition start : Process :=
  {| static_level := None; initialisations := 0%nat; stdout := EmptyString |}.

(** Computations that read and update the process and may throw. *)
Definition M (A : Type) : Type := Process -> result A * Process.

Definition ret {A : Type} (a : A) : M A := fun p => (Ok a, p).

Definition bind {A B : Type} (m : M A) (k : A -> M B) : M B :=
  fun p =>
    match m p with
    | (Ok a, p') => k a p'
    | (Throw e, p') => (Throw e, p')
    end.

(** A pure step that returns or throws. *)
Definition eval {A : Type} (r : result A) : M A := fun p => (r, p).

Notation "x <- m ;; k" := (bind m (fun x => k))
  (at level 61, m at next level, right associativity).

(** How a call ends: it returns, an exception leaves it, or
    [std::terminate] ends the process. *)
Inductive Completion : Type :=
| Returned (p : Process)
| Raised (e : exception) (p : Process)
| Terminated (p : Process).

Definition state_of (c : Completion) : Process :=
  match c with
  | Returned p | Raised _ p | Terminated p => p
  end.

(** A function declared [noexcept]: an exception that reaches its boundary
    calls [std::terminate]. *)
Definition noexcept (body : M unit) (p : Process) : Completion :=
  match body p with
  | (Ok _, p') => Returned p'
  | (Throw _, p') => Terminated p'
  end.

(** [fwrite(s.data(), 1, s.size(), stdout)], its return value ignored. *)
Definition fwrite (s : string) : M unit :=
  fun p =>
    (Ok tt,
     {| static_level := static_level p;
        initialisations := initialisations p;
        stdout := stdout p ++ s |}).

(** [fflush(stdout)]: [stdout] already holds every byte written. *)
Definition fflush : M unit := ret tt.

(** [snprintf(prefix, size, "<%d>[%.*s:%u] ", d, precision, s, u)]: the
    return value and the characters left in the buffer before its
    terminator.  A negative precision counts as none; a result longer
    than [INT_MAX] is an error, reported by a negative return value. *)
Definition snprintf (size : nat) (d : Z) (precision : Z) (s : string)
  (u : Z) : Z * string :=
  let shown :=
    if precision <? 0 then s else StringView.take (Z.to_nat precision) s in
  let text := "<" ++ to_string d ++ ">[" ++ shown ++ ":" ++ to_string u ++ "] " in
  let n := Z.of_nat (String.length text) in
  (if INT_MAX <? n then -1 else n, StringView.take (size - 1) text).

Section Logger.

(** [__GNUC__], the compiler's major version. *)
Variable GNUC : Z.

(** [BMCWEB_LOGGING_LEVEL], from the generated [bmcweb_config.h]. *)
Variable BMCWEB_LOGGING_LEVEL : string.

Variable library_fields : Format.library.

(** The static is initialised by the first call that reaches its
    declaration; the reference returned is read by [vlog]. *)
Definition getBmcwebCurrentLoggingLevel : M LogLevel :=
  fun p =>
    match static_level p with
    | Some level => (Ok level, p)
    | None =>
        let level := getLogLevelFromName BMCWEB_LOGGING_LEVEL in
        (Ok level,
         {| static_level := Some level;
            initialisations := S (initialisations p);
            stdout := stdout p |})
    end.

(** The [try] block of the [__GNUC__ > 12] branch and its handler.
    [logLocation] is assigned the prefix before the caller's template
    is formatted, so the handler appends to whatever was assigned. *)
Definition logLocation_std (systemdLevel : Z) (filename : string)
  (loc : source_location) (format : string) (args : list format_arg)
  : result string :=
  let logLocation := EmptyString in
  match
    vformat library_fields "<{}>[{}:{}] "
      [Std (IntArg systemdLevel); Std (StringArg filename);
       Std (IntArg (line loc))]
  with
  | Throw format_error => Ok (logLocation ++ "Failed to format")
  | Throw e => Throw e
  | Ok prefix =>
      let logLocation := prefix in
      match vformat library_fields format args with
      | Ok message => Ok (logLocation ++ message)
      | Throw format_error => Ok (logLocation ++ "Failed to format")
      | Throw e => Throw e
      end
  end.

(** The [#else] branch, for [__GNUC__ <= 12]: the prefix goes through a
    256-byte buffer, and only the caller's template is formatted inside
    the [try] block. *)
Definition logLocation_fmt (systemdLevel : Z) (filename : string)
  (loc : source_location) (format : string) (args : list format_arg)
  : result string :=
  let logLocation := EmptyString in
  let '(n, prefix) :=
    snprintf 256 systemdLevel (to_int (StringView.size filename)) filename
      (to_unsigned (line loc)) in
  let logLocation :=
    if 0 <? n then
      logLocation ++ StringView.take (Z.to_nat (Z.min n (256 - 1))) prefix
    else logLocation in
  match vformat library_fields format args with
  | Ok message => Ok (logLocation ++ message)
  | Throw format_error => Ok (logLocation ++ "Failed to format")
  | Throw e => Throw e
  end.

(** The body of [vlog<level, Args...>]. *)
Definition vlog_body (level : LogLevel) (format : string)
  (args : list format_arg) (loc : source_location) : M unit :=
  threshold <- getBmcwebCurrentLoggingLevel ;;
  if threshold <? level then ret tt
  else
    let systemdLevel := toSystemdLevel level in
    let filename := file_name loc in
    filename <- eval (substr filename (StringView.rfind filename "/")) ;;
    let filename :=
      if negb (StringView.empty filename) then remove_prefix filename 1
      else filename in
    logLocation <-
      eval (if 12 <? GNUC
            then logLocation_std systemdLevel filename loc format args
            else logLocation_fmt systemdLevel filename loc format args) ;;
    let logLocation := logLocation ++ newline in
    _ <- fwrite logLocation ;;
    fflush.

(** [crow::vlog], declared [noexcept]. *)
Definition vlog (level : LogLevel) (format : string)
  (args : list format_arg) (loc : source_location) (p : Process)
  : Completion :=
  noexcept (vlog_body level format args loc) p.

(** The per-level entry points: each constructor is [noexcept] and passes
    its template, its arguments and the call site's location to [vlog]
    at a fixed level. *)
Definition BMCWEB_LOG_CRITICAL (format : string) (args : list format_arg)
  (loc : source_location) : Process -> Completion :=
  vlog Critical format args loc.

Definition BMCWEB_LOG_ERROR (format : string) (args : list format_arg)
  (loc : source_location) : Process -> Completion :=
  vlog Error format args loc.

Definition BMCWEB_LOG_WARNING (format : string) (args : list format_arg)
  (loc : source_location) : Process -> Completion :=
  vlog Warning format args loc.

Definition BMCWEB_LOG_INFO (format : string) (args : list format_arg)
  (loc : source_location) : Process -> Completion :=
  vlog Info format args loc.

Definition BMCWEB_LOG_DEBUG (format : string) (args : list format_arg)
  (loc : source_location) : Process -> Completion :=
  vlog Debug format args loc.

(** What client code can do with the logger. *)
Inductive Operation : Type :=
| LogCritical (format : string) (args : list format_arg) (loc : source_location)
| LogError (format : string) (args : list format_arg) (loc : source_location)
| LogWarning (format : string) (args : list format_arg) (loc : source_location)
| LogInfo (format : string) (args : list format_arg) (loc : source_location)
| LogDebug (format : string) (args : list format_arg) (loc : source_location)
| ReadLevel.

Definition perform (op : Operation) (p : Process) : Completion :=
  match op with
  | LogCritical format args loc => BMCWEB_LOG_CRITICAL format args loc p
  | LogError format args loc => BMCWEB_LOG_ERROR format args loc p
  | LogWarning format args loc => BMCWEB_LOG_WARNING format args loc p
  | LogInfo format args loc => BMCWEB_LOG_INFO format args loc p
  | LogDebug format args loc => BMCWEB_LOG_DEBUG format args loc p
  | ReadLevel => Returned (snd (getBmcwebCurrentLoggingLevel p))
  end.

(** A client running operations one after the other; nothing runs after
    [std::terminate]. *)
Fixpoint run (ops : list Operation) (p : Process) : Completion :=
  match ops with
  | [] => Returned p
  | op :: ops' =>
      match perform op p with
      | Returned p' => run ops' p'
      | c => c
      end
  end.

End Logger.

End crow.

(** ** Vocabulary of the statements *)

(** The prefix [<priority>[file:line] ] as text. *)
Definition prefix_text (systemdLevel : Z) (filename : string) (line : Z)
  : string :=
  "<" ++ to_string systemdLevel ++ ">[" ++ filename ++ ":" ++ to_string line
      ++ "] ".

(** What is left of a prefix after the branch that built it: the
    [__GNUC__ <= 12] branch keeps at most 255 characters. *)
Definition buffered (GNUC : Z) (text : string) : string :=
  if 12 <? GNUC then text else StringView.take 255 text.

(** On the [__GNUC__ <= 12] branch, the line number is an [unsigned] and
    the prefix is no longer than [INT_MAX]. *)
Definition representable (GNUC : Z) (text : string) (line : Z) : Prop :=
  12 < GNUC \/ (0 <= line < 2 ^ 32 /\ Z.of_nat (String.length text) <= INT_MAX).

(** On the [__GNUC__ <= 12] branch, moreover, the prefix fits the buffer. *)
Definition fits_buffer (GNUC : Z) (text : string) (line : Z) : Prop :=
  12 < GNUC \/ (0 <= line < 2 ^ 32 /\ (String.length text <= 255)%nat).

(** The prefix [logLocation] holds when the caller's template is formatted,
    on either branch. *)
Definition built_prefix (GNUC : Z) (systemdLevel : Z) (filename : string)
  (loc : crow.source_location) : string :=
  if 12 <? GNUC then prefix_text systemdLevel filename (crow.line loc)
  else
    let '(n, prefix) :=
      crow.snprintf 256 systemdLevel (to_int (StringView.size filename))
        filename (to_unsigned (crow.line loc)) in
    if 0 <? n
    then "" ++ StringView.take (Z.to_nat (Z.min n (256 - 1))) prefix
    else "".

(** Formatting produced a text or threw the one exception [vlog] handles. *)
Definition contained (r : result string) : bool :=
  match r with
  | Ok _ => true
  | Throw format_error => true
  | Throw _ => false
  end.

(** The call returned and added one newline-terminated text to [stdout]. *)
Definition writes_line (before : crow.Process) (c : crow.Completion) : Prop :=
  exists text p',
    c = crow.Returned p' /\
    crow.stdout p' = crow.stdout before ++ text ++ newline.

(** The call left [stdout] as it was. *)
Definition writes_nothing (before : crow.Process) (c : crow.Completion)
  : Prop :=
  crow.stdout (crow.state_of c) = crow.stdout before.

(** The threshold a call made in state [p] reads. *)
Definition threshold (BMCWEB_LOGGING_LEVEL : string) (p : crow.Process)
  : crow.LogLevel :=
  match fst (crow.getBmcwebCurrentLoggingLevel BMCWEB_LOGGING_LEVEL p) with
  | Ok level => level
  | Throw _ => crow.Disabled
  end.

(** The process as the call leaves it when it returns at the level check. *)
Definition after_read (BMCWEB_LOGGING_LEVEL : string) (p : crow.Process)
  : crow.Process :=
  snd (crow.getBmcwebCurrentLoggingLevel BMCWEB_LOGGING_LEVEL p).

Definition set_stdout (p : crow.Process) (s : string) : crow.Process :=
  {| crow.static_level := crow.static_level p;
     crow.initialisations := crow.initialisations p;
     crow.stdout := s |}.

(** The static is untouched and uncounted, or holds the resolved
    configuration string and was computed once. *)
Definition cached (cfg : string) (p : crow.Process) : Prop :=
  (crow.static_level p = None /\ crow.initialisations p = 0%nat)
  \/ (crow.static_level p = Some (crow.getLogLevelFromName cfg)
      /\ crow.initialisations p = 1%nat).

(** The static holds the resolved configuration string, computed once. *)
Definition initialised (cfg : string) (p : crow.Process) : Prop :=
  crow.static_level p = Some (crow.getLogLevelFromName cfg)
  /\ crow.initialisations p = 1%nat.

(** What follows the prefix on the emitted line: the formatted message, or
    the placeholder the handler appends. *)
Definition message_or_placeholder (r : result string) : string :=
  match r with
  | Ok message => message
  | Throw _ => "Failed to format"
  end.

(** The shape the five entry points share. *)
Definition entry_point : Type :=
  Z -> string -> Format.library ->
  string -> list format_arg -> crow.source_location ->
  crow.Process -> crow.Completion.

(** From the start of a process configured with [cfg], every call of
    [entry] whose path holds a separator and whose formatting is
    [contained] writes a line. *)
Definition emits (cfg : string) (entry : entry_point) : Prop :=
  forall GNUC lib format args loc,
    StringView.contains "/" (crow.file_name loc) = true ->
    contained (vformat lib format args) = true ->
    writes_line crow.start (entry GNUC cfg lib format args loc crow.start).

(** From the start of a process configured with [cfg], every call of
    [entry] returns and writes nothing. *)
Definition silent (cfg : string) (entry : entry_point) : Prop :=
  forall GNUC lib format args loc,
    entry GNUC cfg lib format args loc crow.start
    = crow.Returned (after_read cfg crow.start)
    /\ writes_nothing crow.start (entry GNUC cfg lib format args loc crow.start).


(** A library for closed examples; their templates are plain, so it is
    never consulted. *)
Definition no_library : Format.library := fun _ _ _ _ _ => Throw format_error.

(** * Theorems *)

(** ** Strings *)

Lemma append_assoc (a b c : string) : (a ++ b) ++ c = a ++ (b ++ c).
Proof. induction a as [|x a IH]; simpl; [reflexivity | now rewrite IH]. Qed.

Lemma length_append (a b : string) :
  String.length (a ++ b) = (String.length a + String.length b)%nat.
Proof. induction a as [|x a IH]; simpl; [reflexivity | now rewrite IH]. Qed.

Lemma drop_append (a b : string) : StringView.drop (String.length a) (a ++ b) = b.
Proof. induction a as [|x a IH]; simpl; [reflexivity | exact IH]. Qed.

Lemma take_all (n : nat) (s : string) :
  (String.length s <= n)%nat -> StringView.take n s = s.
Proof.
  revert n; induction s as [|x s IH]; intros [|n] H; simpl in *;
    try reflexivity; try lia.
  rewrite IH by lia. reflexivity.
Qed.

Lemma take_take (n m : nat) (s : string) :
  StringView.take n (StringView.take m s) = StringView.take (Nat.min n m) s.
Proof.
  revert n m; induction s as [|x s IH]; intros [|n] [|m]; simpl;
    try reflexivity.
  now rewrite IH.
Qed.

(** ** [rfind] *)

Lemma rfind_from_append (a b : string) (c : ascii) (i last : Z) :
  StringView.rfind_from (a ++ b) c i last
  = StringView.rfind_from b c (i + Z.of_nat (String.length a))
      (StringView.rfind_from a c i last).
Proof.
  revert i last; induction a as [|x a IH]; intros i last; simpl String.length.
  - simpl. now rewrite Z.add_0_r.
  - cbn [append StringView.rfind_from]. rewrite IH. f_equal. lia.
Qed.

Lemma rfind_from_absent (s : string) (c : ascii) (i last : Z) :
  StringView.contains c s = false -> StringView.rfind_from s c i last = last.
Proof.
  revert i last; induction s as [|x s IH]; intros i last H; simpl in *.
  - reflexivity.
  - apply orb_false_iff in H as [Hx Hs]. rewrite Hx. now apply IH.
Qed.

(** No separator: [rfind] answers [npos]. *)
Lemma rfind_absent (s : string) (c : ascii) :
  StringView.contains c s = false -> StringView.rfind s c = StringView.npos.
Proof. apply rfind_from_absent. Qed.

(** A separator with none after it is the one [rfind] finds. *)
Lemma rfind_last (dir name : string) (c : ascii) :
  StringView.contains c name = false ->
  StringView.rfind (dir ++ String c name) c = Z.of_nat (String.length dir).
Proof.
  intros H. unfold StringView.rfind. rewrite rfind_from_append.
  cbn [StringView.rfind_from]. rewrite Ascii.eqb_refl.
  rewrite rfind_from_absent by exact H. lia.
Qed.

(** A path that holds a separator splits at its last one. *)
Lemma split_at_last (c : ascii) (s : string) :
  StringView.contains c s = true ->
  exists dir name,
    s = dir ++ String c name /\ StringView.contains c name = false.
Proof.
  induction s as [|x s IH]; simpl; intros H; [discriminate |].
  destruct (StringView.contains c s) eqn:Hs.
  - destruct (IH eq_refl) as (dir & name & -> & Hn).
    exists (String x dir), name. split; [reflexivity | exact Hn].
  - rewrite orb_false_r in H. apply Ascii.eqb_eq in H as ->.
    exists "", s. split; [reflexivity | exact Hs].
Qed.

(** [substr] at the last separator keeps the separator and the name. *)
Lemma substr_at_last (dir name : string) (c : ascii) :
  StringView.contains c name = false ->
  substr (dir ++ String c name) (StringView.rfind (dir ++ String c name) c)
  = Ok (String c name).
Proof.
  intros H. rewrite rfind_last by exact H. unfold substr, StringView.size.
  rewrite length_append. simpl String.length.
  destruct (Z.ltb_spec (Z.of_nat (String.length dir + S (String.length name)))
              (Z.of_nat (String.length dir))) as [Hlt|_]; [lia |].
  rewrite Nat2Z.id. now rewrite drop_append.
Qed.

(** [substr] at [npos] throws. *)
Lemma substr_npos (s : string) :
  StringView.size s < StringView.npos ->
  substr s StringView.npos = Throw out_of_range.
Proof.
  intros H. unfold substr.
  destruct (Z.ltb_spec (StringView.size s) StringView.npos); [reflexivity | lia].
Qed.

(** ** The engine on the templates the source writes *)

(** [format_to(out, "{}", x)] is the formatter of [x] applied to [out]. *)
Lemma format_to_single {Arg : Type} (lib : Format.library)
  (fmt : Arg -> string -> result string) (out : string) (a : Arg) :
  Format.format_to lib fmt out "{}" [a] = fmt a out.
Proof.
  unfold Format.format_to. cbn. destruct (fmt a out); reflexivity.
Qed.

(** The prefix template with the three values [vlog] passes. *)
Lemma format_prefix (lib : Format.library) (d : Z) (f : string) (l : Z) :
  vformat lib "<{}>[{}:{}] " [Std (IntArg d); Std (StringArg f); Std (IntArg l)]
  = Ok (prefix_text d f l).
Proof.
  unfold vformat, Format.format, Format.format_to, prefix_text.
  cbn. repeat rewrite append_assoc. reflexivity.
Qed.

(** ** The [__GNUC__ <= 12] prefix *)

Lemma to_int_small (z : Z) : 0 <= z <= INT_MAX -> to_int z = z.
Proof.
  unfold to_int, INT_MAX. intros H.
  rewrite Z.mod_small by lia.
  destruct (Z.ltb_spec z (2 ^ 31)); lia.
Qed.

Lemma prefix_text_length (d : Z) (f : string) (l : Z) :
  (String.length (prefix_text d f l)
   = 6 + String.length (to_string d) + String.length f
     + String.length (to_string l))%nat.
Proof.
  unfold prefix_text. repeat rewrite length_append. simpl String.length. lia.
Qed.

(** What [logLocation] holds after the buffer has been appended. *)
Lemma fallback_prefix (d : Z) (f : string) (l : Z) :
  0 <= l < 2 ^ 32 ->
  Z.of_nat (String.length (prefix_text d f l)) <= INT_MAX ->
  (let '(n, prefix) :=
     crow.snprintf 256 d (to_int (StringView.size f)) f (to_unsigned l) in
   if 0 <? n
   then "" ++ StringView.take (Z.to_nat (Z.min n (256 - 1))) prefix
   else "")
  = StringView.take 255 (prefix_text d f l).
Proof.
  intros Hl Hn. pose proof (prefix_text_length d f l) as Hlen.
  unfold crow.snprintf, to_unsigned.
  rewrite Z.mod_small by lia.
  rewrite to_int_small by (unfold StringView.size; lia).
  destruct (Z.ltb_spec (StringView.size f) 0) as [Hneg|_];
    [unfold StringView.size in Hneg; lia |].
  unfold StringView.size. rewrite Nat2Z.id.
  rewrite (take_all (String.length f) f) by lia.
  fold (prefix_text d f l).
  destruct (Z.ltb_spec INT_MAX (Z.of_nat (String.length (prefix_text d f l))))
    as [Hbig|_]; [lia |].
  destruct (Z.ltb_spec 0 (Z.of_nat (String.length (prefix_text d f l))))
    as [_|Hzero]; [| lia].
  cbn [append]. change (256 - 1)%nat with 255%nat. rewrite take_take.
  destruct (Z.min_spec (Z.of_nat (String.length (prefix_text d f l))) (256 - 1))
    as [[Hlt ->]|[Hge ->]].
  - rewrite Nat2Z.id. rewrite Nat.min_l by lia.
    rewrite take_all by lia. symmetry. apply take_all. lia.
  - change (Z.to_nat (256 - 1)) with 255%nat. now rewrite Nat.min_id.
Qed.

Lemma built_prefix_buffered (GNUC d : Z) (f : string)
  (loc : crow.source_location) :
  representable GNUC (prefix_text d f (crow.line loc)) (crow.line loc) ->
  built_prefix GNUC d f loc
  = buffered GNUC (prefix_text d f (crow.line loc)).
Proof.
  unfold representable, built_prefix, buffered.
  destruct (Z.ltb_spec 12 GNUC) as [Hg|Hg]; intros [H|[Hl Hn]];
    try reflexivity; try lia.
  now apply fallback_prefix.
Qed.

Lemma built_prefix_fits (GNUC d : Z) (f : string)
  (loc : crow.source_location) :
  fits_buffer GNUC (prefix_text d f (crow.line loc)) (crow.line loc) ->
  built_prefix GNUC d f loc = prefix_text d f (crow.line loc).
Proof.
  intros H. rewrite built_prefix_buffered.
  - unfold buffered.
    destruct (Z.ltb_spec 12 GNUC) as [Hg|Hg]; [reflexivity |].
    destruct H as [H|[_ H]]; [lia | now apply take_all].
  - destruct H as [H|[Hl H]]; [now left | right].
    split; [exact Hl | unfold INT_MAX; lia].
Qed.

(** ** The emission routine, case by case *)

Lemma stdout_after_read (cfg : string) (p : crow.Process) :
  crow.stdout (after_read cfg p) = crow.stdout p.
Proof.
  unfold after_read, crow.getBmcwebCurrentLoggingLevel.
  destruct (crow.static_level p); reflexivity.
Qed.

Lemma read_level (cfg : string) (p : crow.Process) :
  crow.getBmcwebCurrentLoggingLevel cfg p
  = (Ok (threshold cfg p), after_read cfg p).
Proof.
  unfold threshold, after_read, crow.getBmcwebCurrentLoggingLevel.
  destruct (crow.static_level p); reflexivity.
Qed.

(** The level check fails the call: it returns at once. *)
Lemma vlog_suppressed (GNUC : Z) (cfg : string) (lib : Format.library)
  (level : crow.LogLevel) (format : string) (args : list format_arg)
  (loc : crow.source_location) (p : crow.Process) :
  (threshold cfg p <? level) = true ->
  crow.vlog GNUC cfg lib level format args loc p
  = crow.Returned (after_read cfg p).
Proof.
  intros H. unfold crow.vlog, crow.noexcept, crow.vlog_body, crow.bind.
  rewrite read_level, H. reflexivity.
Qed.

(** The call passes the level check and its path has no separator:
    [substr] throws inside a [noexcept] function. *)
Lemma vlog_no_separator (GNUC : Z) (cfg : string) (lib : Format.library)
  (level : crow.LogLevel) (format : string) (args : list format_arg)
  (loc : crow.source_location) (p : crow.Process) :
  (threshold cfg p <? level) = false ->
  StringView.contains "/" (crow.file_name loc) = false ->
  StringView.size (crow.file_name loc) < StringView.npos ->
  crow.vlog GNUC cfg lib level format args loc p
  = crow.Terminated (after_read cfg p).
Proof.
  intros H Hs Hn. unfold crow.vlog, crow.noexcept, crow.vlog_body, crow.bind.
  rewrite read_level, H. unfold crow.eval.
  rewrite rfind_absent by exact Hs. rewrite substr_npos by exact Hn.
  reflexivity.
Qed.

(** The call passes the level check and its path splits at a last
    separator: what happens is decided by the formatting of the caller's
    template. *)
Lemma vlog_accepted (GNUC : Z) (cfg : string) (lib : Format.library)
  (level : crow.LogLevel) (format : string) (args : list format_arg)
  (loc : crow.source_location) (p : crow.Process) (dir short : string) :
  (threshold cfg p <? level) = false ->
  crow.file_name loc = dir ++ String "/" short ->
  StringView.contains "/" short = false ->
  crow.vlog GNUC cfg lib level format args loc p
  = let pre := built_prefix GNUC (crow.toSystemdLevel level) short loc in
    match vformat lib format args with
    | Ok message =>
        crow.Returned
          (set_stdout (after_read cfg p)
             (crow.stdout p ++ (pre ++ message) ++ newline))
    | Throw format_error =>
        crow.Returned
          (set_stdout (after_read cfg p)
             (crow.stdout p ++ (pre ++ "Failed to format") ++ newline))
    | Throw _ => crow.Terminated (after_read cfg p)
    end.
Proof.
  intros H Hf Hs. unfold crow.vlog, crow.noexcept, crow.vlog_body, crow.bind.
  rewrite read_level, H. unfold crow.eval.
  rewrite Hf, substr_at_last by exact Hs.
  cbn [StringView.empty negb remove_prefix StringView.drop].
  unfold built_prefix, crow.logLocation_std, crow.logLocation_fmt.
  rewrite format_prefix.
  destruct (12 <? GNUC).
  - destruct (vformat lib format args) as [m|[]]; cbn;
      rewrite ?stdout_after_read; reflexivity.
  - destruct (crow.snprintf 256 (crow.toSystemdLevel level)
                (to_int (StringView.size short)) short
                (to_unsigned (crow.line loc))) as [n prefix].
    destruct (vformat lib format args) as [m|[]]; cbn;
      rewrite ?stdout_after_read; reflexivity.
Qed.

(** ** The two tables *)

Lemma toSystemdLevel_cases (level : crow.LogLevel) :
  crow.toSystemdLevel level
  = if level =? crow.Critical then 2
    else if level =? crow.Error then 3
    else if level =? crow.Warning then 4
    else 6.
Proof.
  unfold crow.toSystemdLevel, crow.mapping. cbn [List.find fst snd].
  rewrite !(Z.eqb_sym _ level).
  destruct (level =? crow.Critical); [reflexivity |].
  destruct (level =? crow.Error); [reflexivity |].
  destruct (level =? crow.Warning); [reflexivity |].
  destruct (level =? crow.Info); [reflexivity |].
  destruct (level =? crow.Debug); reflexivity.
Qed.

(** C6: the severity-to-priority mapping is total and fixed: Critical maps
    to 2, Error to 3, Warning to 4, Info to 6 and Debug to 6, and every other
    severity value, Disabled and Enabled among them, maps to 6.  The function
    has no failing case: it is a total function into the integers. *)
Theorem C6_priority_mapping_fixed :
  crow.toSystemdLevel crow.Critical = 2 /\
  crow.toSystemdLevel crow.Error = 3 /\
  crow.toSystemdLevel crow.Warning = 4 /\
  crow.toSystemdLevel crow.Info = 6 /\
  crow.toSystemdLevel crow.Debug = 6 /\
  crow.toSystemdLevel crow.Disabled = 6 /\
  crow.toSystemdLevel crow.Enabled = 6 /\
  (forall level : crow.LogLevel,
      level <> crow.Critical -> level <> crow.Error ->
      level <> crow.Warning ->
      crow.toSystemdLevel level = 6).
Proof.
  repeat (split; [reflexivity |]).
  intros level Hc He Hw. rewrite toSystemdLevel_cases.
  destruct (Z.eqb_spec level crow.Critical); [contradiction |].
  destruct (Z.eqb_spec level crow.Error); [contradiction |].
  destruct (Z.eqb_spec level crow.Warning); [contradiction |].
  reflexivity.
Qed.

(** An unnamed severity value, 42, maps to 6. *)
Lemma C6_priority_mapping_witness : crow.toSystemdLevel 42 = 6.
Proof.
  destruct C6_priority_mapping_fixed as (_ & _ & _ & _ & _ & _ & _ & H).
  apply H; discriminate.
Defined.

(** C5: severity-name resolution is a total function on strings: each of the
    seven names resolves, by exact match, to the enumerator at its index 0 to
    6, and every other string resolves to Disabled. *)
Theorem C5_name_resolution_total :
  crow.getLogLevelFromName "DISABLED" = crow.Disabled /\
  crow.getLogLevelFromName "CRITICAL" = crow.Critical /\
  crow.getLogLevelFromName "ERROR" = crow.Error /\
  crow.getLogLevelFromName "WARNING" = crow.Warning /\
  crow.getLogLevelFromName "INFO" = crow.Info /\
  crow.getLogLevelFromName "DEBUG" = crow.Debug /\
  crow.getLogLevelFromName "ENABLED" = crow.Enabled /\
  [crow.Disabled; crow.Critical; crow.Error; crow.Warning; crow.Info;
   crow.Debug; crow.Enabled] = [0; 1; 2; 3; 4; 5; 6] /\
  crow.getLogLevelFromName "error" = crow.Disabled /\
  (forall name : string,
      (exists i : nat,
          nth_error crow.mapLogLevelFromName i = Some name /\
          crow.getLogLevelFromName name = Z.of_nat i)
      \/ (~ In name crow.mapLogLevelFromName /\
          crow.getLogLevelFromName name = crow.Disabled)).
Proof.
  repeat (split; [reflexivity |]).
  intros name.
  unfold crow.getLogLevelFromName, crow.mapLogLevelFromName.
  cbn [crow.ranges_find].
  destruct (String.eqb_spec "DISABLED" name) as [<-|H0];
    [left; exists 0%nat; split; reflexivity |].
  destruct (String.eqb_spec "CRITICAL" name) as [<-|H1];
    [left; exists 1%nat; split; reflexivity |].
  destruct (String.eqb_spec "ERROR" name) as [<-|H2];
    [left; exists 2%nat; split; reflexivity |].
  destruct (String.eqb_spec "WARNING" name) as [<-|H3];
    [left; exists 3%nat; split; reflexivity |].
  destruct (String.eqb_spec "INFO" name) as [<-|H4];
    [left; exists 4%nat; split; reflexivity |].
  destruct (String.eqb_spec "DEBUG" name) as [<-|H5];
    [left; exists 5%nat; split; reflexivity |].
  destruct (String.eqb_spec "ENABLED" name) as [<-|H6];
    [left; exists 6%nat; split; reflexivity |].
  right. split; [| reflexivity].
  simpl. intuition congruence.
Qed.

(** ** The process-wide threshold *)

Section Threshold.

Variable GNUC : Z.
Variable cfg : string.
Variable lib : Format.library.

Lemma after_read_initialised (p : crow.Process) :
  cached cfg p -> initialised cfg (after_read cfg p).
Proof.
  unfold cached, initialised, after_read, crow.getBmcwebCurrentLoggingLevel.
  intros [[H1 H2]|[H1 H2]]; rewrite H1; simpl; auto.
Qed.

(** Whatever a log call does, it leaves the static as the read left it. *)
Lemma vlog_static (level : crow.LogLevel) (format : string)
  (args : list format_arg) (loc : crow.source_location) (p : crow.Process) :
  let p' := crow.state_of (crow.vlog GNUC cfg lib level format args loc p) in
  crow.static_level p' = crow.static_level (after_read cfg p)
  /\ crow.initialisations p' = crow.initialisations (after_read cfg p).
Proof.
  unfold crow.vlog, crow.noexcept, crow.vlog_body, crow.bind.
  rewrite read_level. destruct (threshold cfg p <? level); [split; reflexivity |].
  unfold crow.eval.
  destruct (substr _ _) as [filename|e]; [| split; reflexivity].
  match goal with
  | |- context [if 12 <? GNUC then ?a else ?b] =>
      destruct (if 12 <? GNUC then a else b) as [logLocation|e]
  end; split; reflexivity.
Qed.

Lemma perform_initialised (op : crow.Operation) (p : crow.Process) :
  cached cfg p -> initialised cfg (crow.state_of (crow.perform GNUC cfg lib op p)).
Proof.
  intros H. apply after_read_initialised in H. unfold initialised in *.
  destruct op; cbn [crow.perform crow.state_of];
    unfold crow.BMCWEB_LOG_CRITICAL, crow.BMCWEB_LOG_ERROR,
      crow.BMCWEB_LOG_WARNING, crow.BMCWEB_LOG_INFO, crow.BMCWEB_LOG_DEBUG;
    try (match goal with
         | |- context [crow.vlog GNUC cfg lib ?l ?f ?a ?loc p] =>
             destruct (vlog_static l f a loc p) as [-> ->]
         end);
    exact H.
Qed.

Lemma run_cached (ops : list crow.Operation) (p : crow.Process) :
  cached cfg p -> cached cfg (crow.state_of (crow.run GNUC cfg lib ops p)).
Proof.
  revert p; induction ops as [|op ops IH]; intros p H; cbn [crow.run].
  - exact H.
  - pose proof (perform_initialised op p H) as Hi.
    destruct (crow.perform GNUC cfg lib op p) as [p'|e p'|p'];
      cbn [crow.state_of] in *.
    + apply IH. now right.
    + now right.
    + now right.
Qed.

End Threshold.

Lemma start_cached (cfg : string) : cached cfg crow.start.
Proof. left. split; reflexivity. Qed.

(** C7: the process-wide threshold is computed at most once, on first
    access, by resolving the configuration string through the name table;
    every read returns that value, and no operation of the logger changes it
    once it is set.  In any state [p] a client can reach from the start of
    the process: the initialiser has run at most once, the static is unset or
    holds the resolved value, a read returns the resolved value, and after
    any further operation the static holds the resolved value with the
    initialiser still counted once. *)
Theorem C7_threshold_cached_once (GNUC : Z) (cfg : string)
  (lib : Format.library) (ops : list crow.Operation) (op : crow.Operation) :
  let resolved := crow.getLogLevelFromName cfg in
  let p := crow.state_of (crow.run GNUC cfg lib ops crow.start) in
  let p' := crow.state_of (crow.perform GNUC cfg lib op p) in
  (crow.initialisations p <= 1)%nat
  /\ cached cfg p
  /\ fst (crow.getBmcwebCurrentLoggingLevel cfg p) = Ok resolved
  /\ crow.static_level (after_read cfg p) = Some resolved
  /\ crow.getBmcwebCurrentLoggingLevel cfg (after_read cfg p)
     = (Ok resolved, after_read cfg p)
  /\ crow.static_level p' = Some resolved
  /\ crow.initialisations p' = 1%nat.
Proof.
  intros resolved p p'.
  assert (Hc : cached cfg p) by (apply run_cached, start_cached).
  pose proof (after_read_initialised cfg p Hc) as [Ha Hn].
  pose proof (perform_initialised GNUC cfg lib op p Hc) as [Hs Hi].
  repeat split.
  - destruct Hc as [[_ ->]|[_ ->]]; lia.
  - exact Hc.
  - unfold crow.getBmcwebCurrentLoggingLevel.
    destruct Hc as [[-> _]|[-> _]]; reflexivity.
  - exact Ha.
  - unfold crow.getBmcwebCurrentLoggingLevel. fold resolved in Ha.
    rewrite Ha. reflexivity.
  - exact Hs.
  - exact Hi.
Qed.

(** ** Decimal numerals *)

Lemma all_digits_uint (d : Decimal.uint) :
  all_digits (NilEmpty.string_of_uint d) = true.
Proof. induction d; simpl; auto. Qed.

Lemma all_digits_to_string_unsigned (n : N) :
  all_digits (to_string_unsigned n) = true.
Proof.
  unfold to_string_unsigned, NilZero.string_of_uint.
  destruct (N.to_uint n); try reflexivity; apply all_digits_uint.
Qed.

Lemma to_uint_not_nil (n : N) : N.to_uint n <> Decimal.Nil.
Proof.
  destruct n as [|p]; simpl; [discriminate |].
  apply DecimalPos.Unsigned.to_uint_nonnil.
Qed.

(** Reading the numeral back gives the number. *)
Lemma decimal_value_to_string_unsigned (n : N) :
  decimal_value (to_string_unsigned n) = Some n.
Proof.
  unfold decimal_value, to_string_unsigned.
  rewrite NilZero.usu by apply to_uint_not_nil.
  simpl. now rewrite DecimalN.Unsigned.of_to.
Qed.

Lemma length_string_of_uint (d : Decimal.uint) :
  String.length (NilEmpty.string_of_uint d) = Decimal.nb_digits d.
Proof. induction d; simpl; auto. Qed.

Lemma nb_digits_double (d : Decimal.uint) :
  (Decimal.nb_digits (Decimal.Little.double d) <= S (Decimal.nb_digits d)
   /\ Decimal.nb_digits (Decimal.Little.succ_double d)
      <= S (Decimal.nb_digits d))%nat.
Proof. induction d; simpl; lia. Qed.

Lemma nb_digits_to_little_uint (p : positive) :
  (Decimal.nb_digits (Pos.to_little_uint p) <= Pos.size_nat p)%nat.
Proof.
  induction p as [p IH|p IH|]; simpl.
  - pose proof (nb_digits_double (Pos.to_little_uint p)). lia.
  - pose proof (nb_digits_double (Pos.to_little_uint p)). lia.
  - lia.
Qed.

Lemma size_nat_bound (p : positive) (n : nat) :
  Z.pos p < 2 ^ Z.of_nat n -> (Pos.size_nat p <= n)%nat.
Proof.
  revert n; induction p as [p IH|p IH|]; intros [|n] H;
    try (simpl in H; lia);
    rewrite Nat2Z.inj_succ, Z.pow_succ_r in H by lia; simpl.
  - apply le_n_S, IH. lia.
  - apply le_n_S, IH. lia.
  - lia.
Qed.

(** A value below [2 ^ 32] has a numeral of at most 32 characters. *)
Lemma length_to_string_bound (z : Z) :
  0 <= z < 2 ^ 32 -> (String.length (to_string z) <= 32)%nat.
Proof.
  intros H. unfold to_string. destruct z as [|p|p]; try lia.
  - simpl. lia.
  - unfold Z.to_int, NilZero.string_of_int, NilZero.string_of_uint.
    assert (Hn : (Decimal.nb_digits (Pos.to_uint p) <= 32)%nat).
    { unfold Pos.to_uint. rewrite DecimalFacts.nb_digits_rev.
      pose proof (nb_digits_to_little_uint p).
      pose proof (size_nat_bound p 32). simpl Z.of_nat in *. lia. }
    destruct (Pos.to_uint p) eqn:E; try (simpl; lia);
      rewrite <- E in *; rewrite length_string_of_uint; exact Hn.
Qed.

(** The priority is one of four digits. *)
Lemma systemd_digit (level : crow.LogLevel) :
  exists c : ascii,
    In c ["2"; "3"; "4"; "6"]%char
    /\ to_string (crow.toSystemdLevel level) = String c "".
Proof.
  rewrite toSystemdLevel_cases.
  destruct (level =? crow.Critical); [exists "2"%char; simpl; auto |].
  destruct (level =? crow.Error); [exists "3"%char; simpl; auto |].
  destruct (level =? crow.Warning); [exists "4"%char; simpl; auto |].
  exists "6"%char; simpl; auto 6.
Qed.

(** ** The adapters *)

(** What the adapter appends when it is called: the decimal numeral of the
    pointer's 64 bits. *)
Lemma adapter_appends_decimal (lib : Format.library) (ptr : pointer)
  (out : string) :
  formatter_void_ptr_format lib ptr out
  = Ok (out ++ to_string_unsigned (ptr mod 2 ^ 64)).
Proof.
  unfold formatter_void_ptr_format, std_format_to.
  now rewrite format_to_single.
Qed.

(** The library's rendering of a pointer starts with [0x], so it is no
    decimal numeral. *)
Lemma hexadecimal_not_decimal (n : N) :
  (exists digits, HexString.of_N n = "0x" ++ digits)
  /\ all_digits (HexString.of_N n) = false.
Proof.
  destruct n as [|p]; (split; [eexists; reflexivity | reflexivity]).
Qed.

(** C8, at a logged pointer: where the claim has every raw pointer passed
    to a log call rendered in decimal by the pointer adapter, the pointer a
    call passes is the [const void*] of [logPtr], which the library renders
    itself, in hexadecimal after [0x]; the adapter, keyed on [void*], would
    have appended the decimal numeral of the same bits, a different text.  A
    Debug call with [logPtr] of the address 4096 writes [0x1000], not
    [4096]. *)
Theorem C8_logged_pointer_is_hexadecimal (lib : Format.library) (p : N) :
  vformat lib "{}" [Std (PointerArg (logPtr p))]
  = Ok (HexString.of_N (p mod 2 ^ 64))
  /\ (exists digits, HexString.of_N (p mod 2 ^ 64) = "0x" ++ digits)
  /\ all_digits (HexString.of_N (p mod 2 ^ 64)) = false
  /\ formatter_void_ptr_format lib (logPtr p) ""
     = Ok (to_string_unsigned (p mod 2 ^ 64))
  /\ all_digits (to_string_unsigned (p mod 2 ^ 64)) = true
  /\ decimal_value (to_string_unsigned (p mod 2 ^ 64)) = Some (p mod 2 ^ 64)%N
  /\ vformat lib "{}" [Std (PointerArg (logPtr p))]
     <> formatter_void_ptr_format lib (logPtr p) ""
  /\ (forall G : Z,
         crow.BMCWEB_LOG_DEBUG G "DEBUG" no_library "{} open"
           [Std (PointerArg (logPtr 4096))]
           {| crow.file_name := "src/conn.cpp"; crow.line := 9 |} crow.start
         = crow.Returned
             {| crow.static_level := Some crow.Debug;
                crow.initialisations := 1;
                crow.stdout := "<6>[conn.cpp:9] 0x1000 open" ++ newline |})
  /\ formatter_void_ptr_format no_library (logPtr 4096) "" = Ok "4096".
Proof.
  assert (Hm : (logPtr p mod 2 ^ 64 = p mod 2 ^ 64)%N).
  { unfold logPtr, bit_cast_void_ptr. apply N.Div0.mod_mod. }
  assert (Hlog : vformat lib "{}" [Std (PointerArg (logPtr p))]
                 = Ok (HexString.of_N (p mod 2 ^ 64))).
  { unfold vformat, Format.format. rewrite format_to_single.
    cbn [formatter std_formatter append]. now rewrite Hm. }
  assert (Had : formatter_void_ptr_format lib (logPtr p) ""
                = Ok (to_string_unsigned (p mod 2 ^ 64))).
  { rewrite adapter_appends_decimal. cbn [append]. now rewrite Hm. }
  destruct (hexadecimal_not_decimal (p mod 2 ^ 64)) as [Hx Hh].
  pose proof (all_digits_to_string_unsigned (p mod 2 ^ 64)) as Hd.
  split; [exact Hlog |]. split; [exact Hx |]. split; [exact Hh |].
  split; [exact Had |]. split; [exact Hd |].
  split; [apply decimal_value_to_string_unsigned |].
  split; [| split].
  - rewrite Hlog, Had. intros E.
    apply (f_equal (fun r => match r with
                             | Ok s => all_digits s
                             | Throw _ => true
                             end)) in E.
    cbv beta iota in E. rewrite Hh, Hd in E. discriminate E.
  - intros G. unfold crow.BMCWEB_LOG_DEBUG.
    rewrite (vlog_accepted G "DEBUG" no_library crow.Debug "{} open"
               [Std (PointerArg (logPtr 4096))]
               {| crow.file_name := "src/conn.cpp"; crow.line := 9 |}
               crow.start "src" "conn.cpp" eq_refl eq_refl eq_refl).
    cbv zeta. rewrite built_prefix_fits.
    + reflexivity.
    + right. split; [cbn; lia | cbn; lia].
  - reflexivity.
Qed.

(** C9: the string-view adapters append exactly the characters the view
    references, and the URL-view adapter exactly the view's serialized
    buffer: nothing is added, removed, escaped or quoted.  For a
    [string_view_base] that is the [size()] characters at [data()], so the
    output grows by [size()] characters; the same holds when the value is the
    argument of a [{}] field of a format call. *)
Theorem C9_views_rendered_verbatim (lib : Format.library) (out : string) :
  (forall msg : string_view_base,
      formatter_StringView_format lib msg out
      = Ok (out ++ StringView.take (size msg) (data msg)))
  /\ (forall msg : string_view_base,
         (size msg <= String.length (data msg))%nat ->
         exists span rest : string,
           formatter_StringView_format lib msg out = Ok (out ++ span)
           /\ data msg = span ++ rest
           /\ String.length span = size msg
           /\ String.length (out ++ span)
              = (String.length out + size msg)%nat)
  /\ (forall msg : core_string_view,
         formatter_core_StringView_format lib msg out
         = Ok (out ++ characters msg))
  /\ (forall msg : url_view_base,
         formatter_UrlBase_format lib msg out
         = Ok (out ++ characters (buffer msg)))
  /\ (forall (view : string_view_base) (msg : core_string_view)
        (url : url_view_base),
         vformat lib "{}" [StringViewBase view]
         = Ok (StringView.take (size view) (data view))
         /\ vformat lib "{}" [CoreStringView msg] = Ok (characters msg)
         /\ vformat lib "{}" [UrlBase url] = Ok (characters (buffer url))).
Proof.
  assert (Hsplit : forall n s, (n <= String.length s)%nat ->
            s = StringView.take n s ++ StringView.drop n s
            /\ String.length (StringView.take n s) = n).
  { induction n as [|n IH]; intros [|c s] H; simpl in *; try lia;
      try (split; reflexivity).
    destruct (IH s) as [E L]; [lia |]. split; [now rewrite <- E | now rewrite L]. }
  split; [| split; [| split; [| split; [| intros view msg url; split; [| split]]]]].
  - intros msg. unfold formatter_StringView_format, std_format_to.
    now rewrite format_to_single.
  - intros msg H. destruct (Hsplit _ _ H) as [E L].
    exists (StringView.take (size msg) (data msg)),
      (StringView.drop (size msg) (data msg)).
    split; [| split; [exact E | split; [exact L |]]].
    + unfold formatter_StringView_format, std_format_to.
      now rewrite format_to_single.
    + rewrite length_append, L. reflexivity.
  - intros msg. unfold formatter_core_StringView_format, std_format_to.
    now rewrite format_to_single.
  - intros msg. unfold formatter_UrlBase_format, std_format_to.
    now rewrite format_to_single.
  - unfold vformat, Format.format. rewrite format_to_single. cbn [formatter].
    unfold formatter_StringView_format, std_format_to.
    now rewrite format_to_single.
  - unfold vformat, Format.format. rewrite format_to_single. cbn [formatter].
    unfold formatter_core_StringView_format, std_format_to.
    now rewrite format_to_single.
  - unfold vformat, Format.format. rewrite format_to_single. cbn [formatter].
    unfold formatter_UrlBase_format, std_format_to.
    now rewrite format_to_single.
Qed.

(** A view of the first four characters of a longer buffer. *)
Lemma C9_views_witness :
  exists span rest : string,
    formatter_StringView_format no_library
      {| data := "/redfish/v1"; size := 4 |} "GET "
    = Ok ("GET " ++ span)
    /\ "/redfish/v1" = span ++ rest
    /\ String.length span = 4%nat
    /\ String.length ("GET " ++ span) = (4 + 4)%nat.
Proof.
  destruct (C9_views_rendered_verbatim no_library "GET ") as (_ & H & _).
  apply (H {| data := "/redfish/v1"; size := 4 |}).
  simpl. lia.
Defined.

(** ** The emission routine *)

Lemma not_own_extension (s text : string) : s <> s ++ text ++ newline.
Proof.
  intros E. apply (f_equal String.length) in E.
  rewrite !length_append in E. simpl in E. lia.
Qed.

(** A call that passes the level check, from a path with a separator and
    with contained formatting, writes a line. *)
Lemma accepted_writes_line (GNUC : Z) (cfg : string) (lib : Format.library)
  (level : crow.LogLevel) (format : string) (args : list format_arg)
  (loc : crow.source_location) (p : crow.Process) :
  (threshold cfg p <? level) = false ->
  StringView.contains "/" (crow.file_name loc) = true ->
  contained (vformat lib format args) = true ->
  writes_line p (crow.vlog GNUC cfg lib level format args loc p).
Proof.
  intros H Hs Hc. destruct (split_at_last _ _ Hs) as (dir & short & Hf & Hn).
  rewrite (vlog_accepted GNUC cfg lib level format args loc p dir short H Hf Hn).
  cbv zeta. unfold writes_line.
  destruct (vformat lib format args) as [m|[]]; try discriminate;
    eexists; eexists; (split; [reflexivity | reflexivity]).
Qed.

(** A call that fails the level check returns and writes nothing. *)
Lemma suppressed_writes_nothing (GNUC : Z) (cfg : string)
  (lib : Format.library) (level : crow.LogLevel) (format : string)
  (args : list format_arg) (loc : crow.source_location) (p : crow.Process) :
  (threshold cfg p <? level) = true ->
  crow.vlog GNUC cfg lib level format args loc p
  = crow.Returned (after_read cfg p)
  /\ writes_nothing p (crow.vlog GNUC cfg lib level format args loc p).
Proof.
  intros H. rewrite vlog_suppressed by exact H. split; [reflexivity |].
  unfold writes_nothing. cbn [crow.state_of]. apply stdout_after_read.
Qed.

Lemma emits_at (cfg : string) (level : crow.LogLevel) :
  (crow.getLogLevelFromName cfg <? level) = false ->
  emits cfg (fun GNUC cfg lib => crow.vlog GNUC cfg lib level).
Proof.
  intros H GNUC lib format args loc Hs Hc.
  apply accepted_writes_line; assumption.
Qed.

Lemma silent_at (cfg : string) (level : crow.LogLevel) :
  (crow.getLogLevelFromName cfg <? level) = true ->
  silent cfg (fun GNUC cfg lib => crow.vlog GNUC cfg lib level).
Proof.
  intros H GNUC lib format args loc.
  apply suppressed_writes_nothing. exact H.
Qed.

(** C1 (as amended): for every severity level and every threshold, a log
    call whose captured path holds a ['/'] and whose formatting returns a text
    or throws a format error writes a line to standard output if and only if
    threshold < level is false; every call with threshold < level returns
    having written nothing at all.  With the threshold configured as ERROR,
    calls at Critical and Error emit and calls at Warning, Info and Debug do
    not; with ENABLED all five emit; with DISABLED none does. *)
Theorem C1_level_gate (GNUC : Z) (cfg : string) (lib : Format.library)
  (level : crow.LogLevel) (p : crow.Process) :
  (forall format args loc,
      StringView.contains "/" (crow.file_name loc) = true ->
      contained (vformat lib format args) = true ->
      (writes_line p (crow.vlog GNUC cfg lib level format args loc p)
       <-> (threshold cfg p <? level) = false))
  /\ (forall format args loc,
         (threshold cfg p <? level) = true ->
         crow.vlog GNUC cfg lib level format args loc p
         = crow.Returned (after_read cfg p)
         /\ writes_nothing p (crow.vlog GNUC cfg lib level format args loc p))
  /\ (emits "ERROR" crow.BMCWEB_LOG_CRITICAL
      /\ emits "ERROR" crow.BMCWEB_LOG_ERROR
      /\ silent "ERROR" crow.BMCWEB_LOG_WARNING
      /\ silent "ERROR" crow.BMCWEB_LOG_INFO
      /\ silent "ERROR" crow.BMCWEB_LOG_DEBUG)
  /\ (emits "ENABLED" crow.BMCWEB_LOG_CRITICAL
      /\ emits "ENABLED" crow.BMCWEB_LOG_ERROR
      /\ emits "ENABLED" crow.BMCWEB_LOG_WARNING
      /\ emits "ENABLED" crow.BMCWEB_LOG_INFO
      /\ emits "ENABLED" crow.BMCWEB_LOG_DEBUG)
  /\ (silent "DISABLED" crow.BMCWEB_LOG_CRITICAL
      /\ silent "DISABLED" crow.BMCWEB_LOG_ERROR
      /\ silent "DISABLED" crow.BMCWEB_LOG_WARNING
      /\ silent "DISABLED" crow.BMCWEB_LOG_INFO
      /\ silent "DISABLED" crow.BMCWEB_LOG_DEBUG).
Proof.
  split; [| split; [| split; [| split]]].
  - intros format args loc Hs Hc. split.
    + intros (text & p' & Hr & Hout).
      destruct (threshold cfg p <? level) eqn:H; [| reflexivity].
      rewrite vlog_suppressed in Hr by exact H.
      injection Hr as <-. rewrite stdout_after_read in Hout.
      now apply not_own_extension in Hout.
    + intros H. now apply accepted_writes_line.
  - intros format args loc H. now apply suppressed_writes_nothing.
  - repeat apply conj;
      first [ now apply (emits_at "ERROR") | now apply (silent_at "ERROR") ].
  - repeat apply conj; now apply (emits_at "ENABLED").
  - repeat apply conj; now apply (silent_at "DISABLED").
Qed.

(** An Error call under the threshold INFO writes a line. *)
Lemma C1_level_gate_witness :
  writes_line crow.start
    (crow.vlog 13 "INFO" no_library crow.Error "x={}" [Std (IntArg 1)]
       {| crow.file_name := "src/app.cpp"; crow.line := 7 |} crow.start).
Proof.
  destruct (C1_level_gate 13 "INFO" no_library crow.Error crow.start)
    as [H _].
  apply (H "x={}" [Std (IntArg 1)]
           {| crow.file_name := "src/app.cpp"; crow.line := 7 |});
    reflexivity.
Defined.

(** C1, as stated, fails: under the threshold ENABLED a Critical call whose
    argument's formatter throws something other than a format error ends the
    process at the [noexcept] boundary, and no line is written although
    threshold < level is false. *)
Lemma C1_level_gate_counterexample :
  (threshold "ENABLED" crow.start <? crow.Critical) = false
  /\ crow.BMCWEB_LOG_CRITICAL 13 "ENABLED" no_library "{}"
       [Custom (Throw other_exception)]
       {| crow.file_name := "src/app.cpp"; crow.line := 7 |} crow.start
     = crow.Terminated
         {| crow.static_level := Some crow.Enabled;
            crow.initialisations := 1;
            crow.stdout := "" |}
  /\ ~ writes_line crow.start
        (crow.BMCWEB_LOG_CRITICAL 13 "ENABLED" no_library "{}"
           [Custom (Throw other_exception)]
           {| crow.file_name := "src/app.cpp"; crow.line := 7 |} crow.start).
Proof.
  split; [reflexivity | split; [reflexivity |]].
  intros (text & p' & Hr & _). discriminate Hr.
Qed.

(** [vlog] never lets an exception out. *)
Lemma vlog_never_raises (GNUC : Z) (cfg : string) (lib : Format.library)
  (level : crow.LogLevel) (format : string) (args : list format_arg)
  (loc : crow.source_location) (p : crow.Process) (e : exception)
  (q : crow.Process) :
  crow.vlog GNUC cfg lib level format args loc p <> crow.Raised e q.
Proof.
  unfold crow.vlog, crow.noexcept.
  destruct (crow.vlog_body GNUC cfg lib level format args loc p) as [[u|x] p'];
    discriminate.
Qed.

(** C2 (as amended): for every log call that passes the level check, whose
    captured path holds a ['/'] and whose formatting of the caller's template
    and arguments throws a format error, the call writes exactly one line to
    standard output: the already-built prefix, the literal text
    [Failed to format] and a single newline.  (The prefix is the text
    [<priority>[file:line] ], cut to 255 characters on the [__GNUC__ <= 12]
    branch.)  No exception ever leaves a log call. *)
Theorem C2_format_error_contained (GNUC : Z) (cfg : string)
  (lib : Format.library) (level : crow.LogLevel) (format : string)
  (args : list format_arg) (loc : crow.source_location) (p : crow.Process)
  (dir short : string) :
  (threshold cfg p <? level) = false ->
  crow.file_name loc = dir ++ String "/" short ->
  StringView.contains "/" short = false ->
  representable GNUC
    (prefix_text (crow.toSystemdLevel level) short (crow.line loc))
    (crow.line loc) ->
  vformat lib format args = Throw format_error ->
  crow.vlog GNUC cfg lib level format args loc p
  = crow.Returned
      (set_stdout (after_read cfg p)
         (crow.stdout p
          ++ (buffered GNUC
                (prefix_text (crow.toSystemdLevel level) short (crow.line loc))
              ++ "Failed to format")
          ++ newline))
  /\ (forall level' format' args' loc' p' e q,
         crow.vlog GNUC cfg lib level' format' args' loc' p'
         <> crow.Raised e q).
Proof.
  intros H Hf Hs Hr He. split.
  - rewrite (vlog_accepted GNUC cfg lib level format args loc p dir short H Hf Hs).
    cbv zeta. rewrite He. rewrite built_prefix_buffered by exact Hr.
    reflexivity.
  - intros. apply vlog_never_raises.
Qed.

(** A call with a field and no argument for it. *)
Lemma C2_format_error_witness :
  crow.vlog 13 "INFO" no_library crow.Error "request failed: {}" []
    {| crow.file_name := "/a/b/c.ext"; crow.line := 42 |} crow.start
  = crow.Returned
      {| crow.static_level := Some crow.Info;
         crow.initialisations := 1;
         crow.stdout := "<3>[c.ext:42] Failed to format" ++ newline |}.
Proof.
  apply (proj1 (C2_format_error_contained 13 "INFO" no_library crow.Error
                  "request failed: {}" []
                  {| crow.file_name := "/a/b/c.ext"; crow.line := 42 |}
                  crow.start "/a/b" "c.ext"
                  eq_refl eq_refl eq_refl (or_introl eq_refl) eq_refl)).
Defined.

(** C2, as stated, fails: formatting that fails for another reason than a
    format error (here an argument whose formatter throws another exception)
    is not caught; the process ends and nothing is written. *)
Lemma C2_format_error_counterexample :
  vformat no_library "status {}" [Custom (Throw other_exception)]
  = Throw other_exception
  /\ crow.BMCWEB_LOG_ERROR 13 "INFO" no_library "status {}"
       [Custom (Throw other_exception)]
       {| crow.file_name := "src/http.cpp"; crow.line := 88 |} crow.start
     = crow.Terminated
         {| crow.static_level := Some crow.Info;
            crow.initialisations := 1;
            crow.stdout := "" |}
  /\ crow.BMCWEB_LOG_ERROR 12 "INFO" no_library "status {}"
       [Custom (Throw other_exception)]
       {| crow.file_name := "src/http.cpp"; crow.line := 88 |} crow.start
     = crow.Terminated
         {| crow.static_level := Some crow.Info;
            crow.initialisations := 1;
            crow.stdout := "" |}.
Proof. repeat split. Qed.

(** C3 (as amended): for every accepted log call whose captured path holds
    a ['/'] and whose formatting succeeds, the emitted line is ['<'], the
    priority digit, ['>'], ['['], the short file name, [':'], the decimal
    line number, [']'], one space, the formatted message and a single newline
    (on the [__GNUC__ <= 12] branch when that prefix fits the 255-character
    buffer); the priority digit is one of 2, 3, 4 and 6.  Concretely, with
    threshold Info, [Error("request failed: {}", 404)] from file
    [src/server.cpp], line 42, writes exactly
    [<3>[server.cpp:42] request failed: 404] and a newline. *)
Theorem C3_line_format (GNUC : Z) (cfg : string) (lib : Format.library)
  (level : crow.LogLevel) (format : string) (args : list format_arg)
  (loc : crow.source_location) (p : crow.Process)
  (dir short message : string) :
  (threshold cfg p <? level) = false ->
  crow.file_name loc = dir ++ String "/" short ->
  StringView.contains "/" short = false ->
  fits_buffer GNUC
    (prefix_text (crow.toSystemdLevel level) short (crow.line loc))
    (crow.line loc) ->
  vformat lib format args = Ok message ->
  crow.vlog GNUC cfg lib level format args loc p
  = crow.Returned
      (set_stdout (after_read cfg p)
         (crow.stdout p
          ++ ("<" ++ to_string (crow.toSystemdLevel level) ++ ">["
                  ++ short ++ ":" ++ to_string (crow.line loc) ++ "] "
                  ++ message)
          ++ newline))
  /\ In (to_string (crow.toSystemdLevel level)) ["2"; "3"; "4"; "6"]
  /\ (forall G : Z,
         crow.BMCWEB_LOG_ERROR G "INFO" no_library "request failed: {}"
           [Std (IntArg 404)]
           {| crow.file_name := "src/server.cpp"; crow.line := 42 |}
           crow.start
         = crow.Returned
             {| crow.static_level := Some crow.Info;
                crow.initialisations := 1;
                crow.stdout :=
                  "<3>[server.cpp:42] request failed: 404" ++ newline |}).
Proof.
  intros H Hf Hs Hfit Hm. split; [| split].
  - rewrite (vlog_accepted GNUC cfg lib level format args loc p dir short H Hf Hs).
    cbv zeta. rewrite Hm. rewrite built_prefix_fits by exact Hfit.
    unfold prefix_text. repeat rewrite append_assoc. reflexivity.
  - destruct (systemd_digit level) as (c & Hc & ->).
    simpl in Hc. simpl. intuition (subst; auto).
  - intros G. unfold crow.BMCWEB_LOG_ERROR.
    rewrite (vlog_accepted G "INFO" no_library crow.Error "request failed: {}"
               [Std (IntArg 404)]
               {| crow.file_name := "src/server.cpp"; crow.line := 42 |}
               crow.start "src" "server.cpp" eq_refl eq_refl eq_refl).
    cbv zeta. rewrite built_prefix_fits.
    + reflexivity.
    + right. split; [cbn; lia | cbn; lia].
Qed.

(** The scenario of the claim, from a path with a directory. *)
Lemma C3_line_format_witness :
  crow.vlog 13 "INFO" no_library crow.Error "request failed: {}"
    [Std (IntArg 404)]
    {| crow.file_name := "src/server.cpp"; crow.line := 42 |} crow.start
  = crow.Returned
      {| crow.static_level := Some crow.Info;
         crow.initialisations := 1;
         crow.stdout := "<3>[server.cpp:42] request failed: 404" ++ newline |}.
Proof.
  apply (proj1 (C3_line_format 13 "INFO" no_library crow.Error
                  "request failed: {}" [Std (IntArg 404)]
                  {| crow.file_name := "src/server.cpp"; crow.line := 42 |}
                  crow.start "src" "server.cpp" "request failed: 404"
                  eq_refl eq_refl eq_refl (or_introl eq_refl) eq_refl)).
Defined.

(** C3, as stated, fails.  From the path [server.cpp] of the claim, which
    holds no ['/'], the call ends the process and writes nothing; from
    [src/server.cpp] the line starts with [<3>], not with [3]. *)
Lemma C3_line_format_counterexample :
  crow.BMCWEB_LOG_ERROR 13 "INFO" no_library "request failed: {}"
    [Std (IntArg 404)]
    {| crow.file_name := "server.cpp"; crow.line := 42 |} crow.start
  = crow.Terminated
      {| crow.static_level := Some crow.Info;
         crow.initialisations := 1;
         crow.stdout := "" |}
  /\ crow.BMCWEB_LOG_ERROR 13 "INFO" no_library "request failed: {}"
       [Std (IntArg 404)]
       {| crow.file_name := "src/server.cpp"; crow.line := 42 |} crow.start
     = crow.Returned
         {| crow.static_level := Some crow.Info;
            crow.initialisations := 1;
            crow.stdout :=
              "<3>[server.cpp:42] request failed: 404" ++ newline |}
  /\ "<3>[server.cpp:42] request failed: 404" ++ newline
     <> "3[server.cpp:42] request failed: 404" ++ newline.
Proof. split; [reflexivity | split; [reflexivity | discriminate]]. Qed.

(** The short file name of a path that holds a separator is the text after
    the last one: with it the routine goes on to build
    [<priority>[name:line] ]. *)
Lemma short_file_name_after_last_separator (dir name : string) :
  StringView.contains "/" name = false ->
  (let path := dir ++ String "/" name in
   match substr path (StringView.rfind path "/") with
   | Ok filename =>
       Ok (if negb (StringView.empty filename)
           then remove_prefix filename 1 else filename)
   | Throw e => Throw e
   end) = Ok name.
Proof.
  intros H. cbv zeta. rewrite substr_at_last by exact H. reflexivity.
Qed.

(** C4, on a path without separator: where the claim has the routine use
    the path unchanged, [rfind] answers [npos], [substr(npos)] throws
    [std::out_of_range], and the exception ends the process at the
    [noexcept] boundary of [vlog]; nothing is written. *)
Theorem C4_no_separator_terminates (GNUC : Z) (cfg : string)
  (lib : Format.library) (level : crow.LogLevel) (format : string)
  (args : list format_arg) (loc : crow.source_location) (p : crow.Process) :
  (threshold cfg p <? level) = false ->
  StringView.contains "/" (crow.file_name loc) = false ->
  StringView.size (crow.file_name loc) < StringView.npos ->
  substr (crow.file_name loc) (StringView.rfind (crow.file_name loc) "/")
  = Throw out_of_range
  /\ crow.vlog GNUC cfg lib level format args loc p
     = crow.Terminated (after_read cfg p)
  /\ writes_nothing p (crow.vlog GNUC cfg lib level format args loc p).
Proof.
  intros H Hs Hn. split; [| split].
  - rewrite rfind_absent by exact Hs. now apply substr_npos.
  - now apply vlog_no_separator.
  - rewrite vlog_no_separator by assumption.
    unfold writes_nothing. cbn [crow.state_of]. apply stdout_after_read.
Qed.

(** A call from [c.ext]. *)
Lemma C4_no_separator_witness :
  substr "c.ext" (StringView.rfind "c.ext" "/") = Throw out_of_range
  /\ crow.vlog 13 "INFO" no_library crow.Error "up" []
       {| crow.file_name := "c.ext"; crow.line := 3 |} crow.start
     = crow.Terminated (after_read "INFO" crow.start)
  /\ writes_nothing crow.start
       (crow.vlog 13 "INFO" no_library crow.Error "up" []
          {| crow.file_name := "c.ext"; crow.line := 3 |} crow.start).
Proof.
  apply (C4_no_separator_terminates 13 "INFO" no_library crow.Error "up" []
           {| crow.file_name := "c.ext"; crow.line := 3 |} crow.start);
    reflexivity.
Defined.

(** C10 (as amended): for every accepted log call whose captured path ends
    with a ['/'], the short file name is empty, so the emitted prefix is
    ['<'], the priority digit, ['>'], ['['], [':'], the line number and
    ["] "], with nothing between ['['] and [':']; the text before the
    trailing separator is no part of the line, which is that prefix, the
    message or the placeholder, and a newline. *)
Theorem C10_trailing_separator (GNUC : Z) (cfg : string)
  (lib : Format.library) (level : crow.LogLevel) (format : string)
  (args : list format_arg) (loc : crow.source_location) (p : crow.Process)
  (dir : string) :
  (threshold cfg p <? level) = false ->
  crow.file_name loc = dir ++ "/" ->
  12 < GNUC \/ 0 <= crow.line loc < 2 ^ 32 ->
  contained (vformat lib format args) = true ->
  (let path := crow.file_name loc in
   match substr path (StringView.rfind path "/") with
   | Ok filename =>
       Ok (if negb (StringView.empty filename)
           then remove_prefix filename 1 else filename)
   | Throw e => Throw e
   end) = Ok ""
  /\ crow.vlog GNUC cfg lib level format args loc p
     = crow.Returned
         (set_stdout (after_read cfg p)
            (crow.stdout p
             ++ ("<" ++ to_string (crow.toSystemdLevel level) ++ ">[:"
                     ++ to_string (crow.line loc) ++ "] "
                     ++ message_or_placeholder (vformat lib format args))
             ++ newline))
  /\ In (to_string (crow.toSystemdLevel level)) ["2"; "3"; "4"; "6"].
Proof.
  intros H Hf Hl Hc.
  assert (Hd : In (to_string (crow.toSystemdLevel level)) ["2"; "3"; "4"; "6"]).
  { destruct (systemd_digit level) as (c & Hin & ->).
    simpl in Hin. simpl. intuition (subst; auto). }
  assert (Hfit : fits_buffer GNUC
            (prefix_text (crow.toSystemdLevel level) "" (crow.line loc))
            (crow.line loc)).
  { destruct Hl as [Hg|Hl]; [now left | right]. split; [exact Hl |].
    rewrite prefix_text_length.
    pose proof (length_to_string_bound (crow.line loc) Hl).
    destruct (systemd_digit level) as (c & _ & ->). simpl. lia. }
  split; [| split].
  - cbv zeta. rewrite Hf.
    apply (short_file_name_after_last_separator dir ""). reflexivity.
  - rewrite (vlog_accepted GNUC cfg lib level format args loc p dir ""
               H Hf eq_refl).
    cbv zeta. rewrite built_prefix_fits by exact Hfit.
    unfold prefix_text.
    destruct (vformat lib format args) as [m|[]]; try discriminate;
      cbn [message_or_placeholder]; repeat rewrite append_assoc; reflexivity.
  - exact Hd.
Qed.

(** A call from [src/lib/]. *)
Lemma C10_trailing_separator_witness :
  crow.vlog 12 "INFO" no_library crow.Warning "up {}" [Std (StringArg "now")]
    {| crow.file_name := "src/lib/"; crow.line := 9 |} crow.start
  = crow.Returned
      {| crow.static_level := Some crow.Info;
         crow.initialisations := 1;
         crow.stdout := "<4>[:9] up now" ++ newline |}.
Proof.
  refine (proj1 (proj2
            (C10_trailing_separator 12 "INFO" no_library crow.Warning "up {}"
               [Std (StringArg "now")]
               {| crow.file_name := "src/lib/"; crow.line := 9 |} crow.start
               "src/lib" eq_refl eq_refl _ eq_refl))).
  right. simpl. lia.
Defined.

(** C10, as stated, fails: from a path that ends with ['/'] the emitted
    prefix is [<3>[:9] ], with the priority between ['<'] and ['>'], and not
    [3[:9] ]. *)
Lemma C10_trailing_separator_counterexample :
  crow.BMCWEB_LOG_ERROR 13 "INFO" no_library "up" []
    {| crow.file_name := "src/lib/"; crow.line := 9 |} crow.start
  = crow.Returned
      {| crow.static_level := Some crow.Info;
         crow.initialisations := 1;
         crow.stdout := "<3>[:9] up" ++ newline |}
  /\ "<3>[:9] up" ++ newline <> "3[:9] up" ++ newline.
Proof. split; [reflexivity | discriminate]. Qed.

(** X1: for a captured path that holds a ['/'], the short file name the
    routine derives is the text after the last ['/']: [substr] at the
    position [rfind] answers keeps the separator and the name, and
    [remove_prefix(1)] drops the separator. *)
Theorem short_file_name_is_path_tail (dir name : string) :
  StringView.contains "/" name = false ->
  substr (dir ++ String "/" name)
    (StringView.rfind (dir ++ String "/" name) "/")
  = Ok (String "/" name)
  /\ StringView.empty (String "/" name) = false
  /\ remove_prefix (String "/" name) 1 = name.
Proof.
  intros H. split; [now apply substr_at_last | split; reflexivity].
Qed.

(** The path [/a/b/c.ext] gives [c.ext]. *)
Lemma short_file_name_is_path_tail_witness :
  substr "/a/b/c.ext" (StringView.rfind "/a/b/c.ext" "/") = Ok "/c.ext"
  /\ StringView.empty "/c.ext" = false
  /\ remove_prefix "/c.ext" 1 = "c.ext".
Proof.
  apply (short_file_name_is_path_tail "/a/b" "c.ext"). reflexivity.
Defined.

(** ** Further properties of the emission routine *)

(** Every way [vlog] can end, with what it leaves on [stdout]. *)
Lemma vlog_outcomes (GNUC : Z) (cfg : string) (lib : Format.library)
  (level : crow.LogLevel) (format : string) (args : list format_arg)
  (loc : crow.source_location) (p : crow.Process) :
  let c := crow.vlog GNUC cfg lib level format args loc p in
  c = crow.Returned (after_read cfg p)
  \/ (exists text,
         c = crow.Returned
               (set_stdout (after_read cfg p)
                  (crow.stdout p ++ text ++ newline)))
  \/ c = crow.Terminated (after_read cfg p).
Proof.
  unfold crow.vlog, crow.noexcept, crow.vlog_body, crow.bind.
  rewrite read_level. destruct (threshold cfg p <? level); [now left |].
  unfold crow.eval.
  destruct (substr _ _) as [filename|e]; [| now right; right].
  match goal with
  | |- context [if 12 <? GNUC then ?a else ?b] =>
      destruct (if 12 <? GNUC then a else b) as [logLocation|e]
  end; [| now right; right].
  right; left. exists logLocation. cbn.
  unfold set_stdout. now rewrite stdout_after_read.
Qed.

(** X2: whatever its arguments, a log call ends in one of three ways: it
    returns having written nothing, it returns having appended exactly one
    newline-terminated text to what [stdout] held, or the process is
    terminated with [stdout] untouched.  Earlier output is never altered and
    no partial line is ever written. *)
Theorem vlog_appends_whole_lines_only (GNUC : Z) (cfg : string)
  (lib : Format.library) (level : crow.LogLevel) (format : string)
  (args : list format_arg) (loc : crow.source_location) (p : crow.Process) :
  let c := crow.vlog GNUC cfg lib level format args loc p in
  (c = crow.Returned (after_read cfg p) /\ writes_nothing p c)
  \/ writes_line p c
  \/ (c = crow.Terminated (after_read cfg p) /\ writes_nothing p c).
Proof.
  cbv zeta.
  destruct (vlog_outcomes GNUC cfg lib level format args loc p)
    as [H|[(text & H)|H]]; cbv zeta in H; rewrite H.
  - left. split; [reflexivity |]. apply stdout_after_read.
  - right; left. exists text. eexists. split; reflexivity.
  - right; right. split; [reflexivity |]. apply stdout_after_read.
Qed.

(** X3: a log call terminates the process exactly when it passes the level
    check and then either its captured path holds no ['/'] or the formatting
    of its arguments throws something other than a format error.  In
    particular a suppressed call never does, whatever it is given. *)
Theorem vlog_terminates_iff (GNUC : Z) (cfg : string) (lib : Format.library)
  (level : crow.LogLevel) (format : string) (args : list format_arg)
  (loc : crow.source_location) (p : crow.Process) :
  StringView.size (crow.file_name loc) < StringView.npos ->
  (exists q, crow.vlog GNUC cfg lib level format args loc p
             = crow.Terminated q)
  <-> (threshold cfg p <? level) = false
      /\ (StringView.contains "/" (crow.file_name loc) = false
          \/ contained (vformat lib format args) = false).
Proof.
  intros Hn.
  destruct (threshold cfg p <? level) eqn:H.
  - rewrite vlog_suppressed by exact H. split.
    + intros (q & Hq). discriminate Hq.
    + intros [Hf _]. discriminate Hf.
  - destruct (StringView.contains "/" (crow.file_name loc)) eqn:Hs.
    + destruct (split_at_last _ _ Hs) as (dir & short & Hf & Hsh).
      rewrite (vlog_accepted GNUC cfg lib level format args loc p dir short
                 H Hf Hsh).
      cbv zeta. destruct (vformat lib format args) as [m|[]]; cbn [contained].
      * split; [intros (q & Hq); discriminate Hq
               | intros [_ [E|E]]; discriminate E].
      * split; [intros (q & Hq); discriminate Hq
               | intros [_ [E|E]]; discriminate E].
      * split; [intros _; auto | intros _; eexists; reflexivity].
      * split; [intros _; auto | intros _; eexists; reflexivity].
    + rewrite vlog_no_separator by assumption.
      split; [intros _; auto | intros _; eexists; reflexivity].
Qed.

(** A suppressed call with a separator-free path and a throwing formatter:
    the right-hand side fails, so the call does not terminate. *)
Lemma vlog_terminates_iff_witness :
  (exists q, crow.vlog 13 "ERROR" no_library crow.Debug "{}"
               [Custom (Throw other_exception)]
               {| crow.file_name := "main.cpp"; crow.line := 1 |} crow.start
             = crow.Terminated q)
  <-> (threshold "ERROR" crow.start <? crow.Debug) = false
      /\ (StringView.contains "/" "main.cpp" = false
          \/ contained (vformat no_library "{}"
                          [Custom (Throw other_exception)]) = false).
Proof.
  apply (vlog_terminates_iff 13 "ERROR" no_library crow.Debug "{}"
           [Custom (Throw other_exception)]
           {| crow.file_name := "main.cpp"; crow.line := 1 |} crow.start).
  reflexivity.
Defined.

Lemma getLogLevelFromName_unknown (name : string) :
  ~ In name crow.mapLogLevelFromName ->
  crow.getLogLevelFromName name = crow.Disabled.
Proof.
  intros H. unfold crow.getLogLevelFromName, crow.mapLogLevelFromName in *.
  cbn [crow.ranges_find].
  repeat match goal with
         | |- context [String.eqb ?a name] =>
             destruct (String.eqb_spec a name) as [E|_];
             [exfalso; apply H; rewrite <- E; simpl; tauto |]
         end.
  reflexivity.
Qed.

(** X4: a configuration string that is not one of the seven names (a typo,
    another letter case, the empty string) switches logging off: from the
    start of the process every call of every entry point returns having
    written nothing, also a call that would otherwise end the process. *)
Theorem unknown_level_name_silences_logging (cfg : string) :
  ~ In cfg crow.mapLogLevelFromName ->
  silent cfg crow.BMCWEB_LOG_CRITICAL
  /\ silent cfg crow.BMCWEB_LOG_ERROR
  /\ silent cfg crow.BMCWEB_LOG_WARNING
  /\ silent cfg crow.BMCWEB_LOG_INFO
  /\ silent cfg crow.BMCWEB_LOG_DEBUG.
Proof.
  intros H. apply getLogLevelFromName_unknown in H.
  assert (Hs : forall level, 0 < level ->
            silent cfg (fun GNUC cfg lib => crow.vlog GNUC cfg lib level)).
  { intros level Hl. apply silent_at. rewrite H. unfold crow.Disabled.
    now apply Z.ltb_lt. }
  repeat apply conj; apply Hs; reflexivity.
Qed.

(** The lower-case name [debug] is not in the table. *)
Lemma unknown_level_name_witness :
  silent "debug" crow.BMCWEB_LOG_CRITICAL
  /\ silent "debug" crow.BMCWEB_LOG_ERROR
  /\ silent "debug" crow.BMCWEB_LOG_WARNING
  /\ silent "debug" crow.BMCWEB_LOG_INFO
  /\ silent "debug" crow.BMCWEB_LOG_DEBUG.
Proof.
  apply (unknown_level_name_silences_logging "debug").
  simpl. intuition discriminate.
Defined.

(** A call that wrote a line passed the level check. *)
Lemma writes_line_passed (GNUC : Z) (cfg : string) (lib : Format.library)
  (level : crow.LogLevel) (format : string) (args : list format_arg)
  (loc : crow.source_location) (p : crow.Process) :
  writes_line p (crow.vlog GNUC cfg lib level format args loc p) ->
  (threshold cfg p <? level) = false.
Proof.
  intros (text & p' & Hr & Hout).
  destruct (threshold cfg p <? level) eqn:H; [| reflexivity].
  rewrite vlog_suppressed in Hr by exact H.
  injection Hr as <-. rewrite stdout_after_read in Hout.
  now apply not_own_extension in Hout.
Qed.

(** A call that passed the level check wrote a line or ended the process. *)
Lemma vlog_outcomes_accepted (GNUC : Z) (cfg : string) (lib : Format.library)
  (level : crow.LogLevel) (format : string) (args : list format_arg)
  (loc : crow.source_location) (p : crow.Process) :
  (threshold cfg p <? level) = false ->
  (exists text,
      crow.vlog GNUC cfg lib level format args loc p
      = crow.Returned
          (set_stdout (after_read cfg p) (crow.stdout p ++ text ++ newline)))
  \/ crow.vlog GNUC cfg lib level format args loc p
     = crow.Terminated (after_read cfg p).
Proof.
  intros H. unfold crow.vlog, crow.noexcept, crow.vlog_body, crow.bind.
  rewrite read_level, H. unfold crow.eval.
  destruct (substr _ _) as [filename|e]; [| now right].
  match goal with
  | |- context [if 12 <? GNUC then ?a else ?b] =>
      destruct (if 12 <? GNUC then a else b) as [logLocation|e]
  end; [| now right].
  left. exists logLocation. cbn.
  unfold set_stdout. now rewrite stdout_after_read.
Qed.

(** A call that returned with [stdout] as it was had been suppressed. *)
Lemma returned_unchanged_suppressed (GNUC : Z) (cfg : string)
  (lib : Format.library) (level : crow.LogLevel) (format : string)
  (args : list format_arg) (loc : crow.source_location) (p : crow.Process) :
  crow.vlog GNUC cfg lib level format args loc p
  = crow.Returned (after_read cfg p) ->
  (threshold cfg p <? level) = true.
Proof.
  intros Hret. destruct (threshold cfg p <? level) eqn:H; [reflexivity |].
  exfalso.
  destruct (vlog_outcomes_accepted GNUC cfg lib level format args loc p H)
    as [(text & E)|E]; rewrite E in Hret; [| discriminate Hret].
  injection Hret as Hret. apply (f_equal crow.stdout) in Hret. cbn in Hret.
  rewrite stdout_after_read in Hret.
  symmetry in Hret. now apply not_own_extension in Hret.
Qed.

(** X5: the level check is monotone in the severity of the call.  If some
    call at a level was suppressed, every call at that or a less severe
    (numerically greater) level returns having written nothing; if some call
    at a level wrote a line, every call at that or a more severe level, from
    a path with a ['/'] and with contained formatting, writes a line too. *)
Theorem level_check_is_monotone (GNUC : Z) (cfg : string)
  (lib : Format.library) (level level' : crow.LogLevel) (p : crow.Process)
  (format format' : string) (args args' : list format_arg)
  (loc loc' : crow.source_location) :
  (level <= level' ->
   crow.vlog GNUC cfg lib level format args loc p
   = crow.Returned (after_read cfg p) ->
   crow.vlog GNUC cfg lib level' format' args' loc' p
   = crow.Returned (after_read cfg p)
   /\ writes_nothing p (crow.vlog GNUC cfg lib level' format' args' loc' p))
  /\ (level' <= level ->
      writes_line p (crow.vlog GNUC cfg lib level format args loc p) ->
      StringView.contains "/" (crow.file_name loc') = true ->
      contained (vformat lib format' args') = true ->
      writes_line p (crow.vlog GNUC cfg lib level' format' args' loc' p)).
Proof.
  split.
  - intros Hle Hret. apply suppressed_writes_nothing.
    apply returned_unchanged_suppressed in Hret.
    apply Z.ltb_lt in Hret. apply Z.ltb_lt. lia.
  - intros Hle Hw Hs Hc. apply writes_line_passed in Hw.
    apply accepted_writes_line; try assumption.
    apply Z.ltb_ge in Hw. apply Z.ltb_ge. lia.
Qed.

(** Under the threshold WARNING a Debug call is suppressed, hence so is an
    unnamed, still less severe level; an Error call writes a line, hence so
    does a Critical call. *)
Lemma level_check_is_monotone_witness :
  (crow.vlog 13 "WARNING" no_library 9 "late {}" [Std (IntArg 2)]
     {| crow.file_name := "b.cpp"; crow.line := 5 |} crow.start
   = crow.Returned (after_read "WARNING" crow.start)
   /\ writes_nothing crow.start
        (crow.vlog 13 "WARNING" no_library 9 "late {}" [Std (IntArg 2)]
           {| crow.file_name := "b.cpp"; crow.line := 5 |} crow.start))
  /\ writes_line crow.start
       (crow.vlog 13 "WARNING" no_library crow.Critical "down" []
          {| crow.file_name := "src/b.cpp"; crow.line := 6 |} crow.start).
Proof.
  split.
  - apply (proj1 (level_check_is_monotone 13 "WARNING" no_library crow.Debug 9
                    crow.start "x" "late {}" [] [Std (IntArg 2)]
                    {| crow.file_name := "a.cpp"; crow.line := 1 |}
                    {| crow.file_name := "b.cpp"; crow.line := 5 |}));
      [discriminate | reflexivity].
  - apply (proj2 (level_check_is_monotone 13 "WARNING" no_library crow.Error
                    crow.Critical crow.start "up" "down" [] []
                    {| crow.file_name := "src/a.cpp"; crow.line := 1 |}
                    {| crow.file_name := "src/b.cpp"; crow.line := 6 |}));
      [discriminate | | reflexivity | reflexivity].
    eexists. eexists. split; reflexivity.
Defined.

(** The level of a call matters only through the level check and the
    priority it maps to. *)
Lemma vlog_level_through_priority (GNUC : Z) (cfg : string)
  (lib : Format.library) (level level' : crow.LogLevel) (format : string)
  (args : list format_arg) (loc : crow.source_location) (p : crow.Process) :
  (threshold cfg p <? level) = (threshold cfg p <? level') ->
  crow.toSystemdLevel level = crow.toSystemdLevel level' ->
  crow.vlog GNUC cfg lib level format args loc p
  = crow.vlog GNUC cfg lib level' format args loc p.
Proof.
  intros Hg Hp. unfold crow.vlog, crow.noexcept, crow.vlog_body, crow.bind.
  rewrite read_level, Hg, Hp. reflexivity.
Qed.

(** X6: Debug is mapped to the priority of Info, so once the threshold lets
    Debug through, a Debug call and an Info call with the same template,
    arguments and location do exactly the same: the same bytes on [stdout],
    or the same termination.  More generally two levels that pass the check
    alike and map to one priority cannot be told apart in the output. *)
Theorem debug_lines_equal_info_lines (GNUC : Z) (cfg : string)
  (lib : Format.library) (format : string) (args : list format_arg)
  (loc : crow.source_location) (p : crow.Process) :
  (threshold cfg p <? crow.Debug) = false ->
  crow.BMCWEB_LOG_DEBUG GNUC cfg lib format args loc p
  = crow.BMCWEB_LOG_INFO GNUC cfg lib format args loc p
  /\ (forall level : crow.LogLevel,
         crow.Info <= level ->
         (threshold cfg p <? level) = false ->
         crow.vlog GNUC cfg lib level format args loc p
         = crow.BMCWEB_LOG_INFO GNUC cfg lib format args loc p).
Proof.
  intros H. apply Z.ltb_ge in H. unfold crow.Debug in H.
  assert (Hall : forall level : crow.LogLevel,
             crow.Info <= level ->
             (threshold cfg p <? level) = false ->
             crow.vlog GNUC cfg lib level format args loc p
             = crow.vlog GNUC cfg lib crow.Info format args loc p).
  { intros level Hl Hg. unfold crow.Info in Hl.
    apply vlog_level_through_priority.
    - rewrite Hg. symmetry. apply Z.ltb_ge. apply Z.ltb_ge in Hg.
      unfold crow.Info. lia.
    - rewrite !toSystemdLevel_cases.
      unfold crow.Critical, crow.Error, crow.Warning, crow.Info.
      destruct (Z.eqb_spec level 1); [lia |].
      destruct (Z.eqb_spec level 2); [lia |].
      destruct (Z.eqb_spec level 3); [lia |]. reflexivity. }
  split.
  - unfold crow.BMCWEB_LOG_DEBUG, crow.BMCWEB_LOG_INFO.
    apply Hall; [unfold crow.Info, crow.Debug; lia |].
    apply Z.ltb_ge. unfold crow.Debug. lia.
  - intros level Hl Hg. unfold crow.BMCWEB_LOG_INFO. now apply Hall.
Qed.

(** Under the threshold DEBUG, a Debug call is an Info call. *)
Lemma debug_lines_equal_info_lines_witness :
  crow.BMCWEB_LOG_DEBUG 13 "DEBUG" no_library "poll {}" [Std (IntArg 3)]
    {| crow.file_name := "src/io.cpp"; crow.line := 12 |} crow.start
  = crow.BMCWEB_LOG_INFO 13 "DEBUG" no_library "poll {}" [Std (IntArg 3)]
      {| crow.file_name := "src/io.cpp"; crow.line := 12 |} crow.start.
Proof.
  apply (proj1 (debug_lines_equal_info_lines 13 "DEBUG" no_library "poll {}"
                  [Std (IntArg 3)]
                  {| crow.file_name := "src/io.cpp"; crow.line := 12 |}
                  crow.start eq_refl)).
Defined.

(** X7: the priority [toSystemdLevel] answers is always one of 2, 3, 4 and
    6: never the syslog priorities 0, 1 and 5, never outside 2..6.  From
    Critical upwards it does not decrease as the level grows less severe,
    and it is 6 from Info on. *)
Theorem priority_range_and_order (level level' : crow.LogLevel) :
  In (crow.toSystemdLevel level) [2; 3; 4; 6]
  /\ (crow.Critical <= level -> level <= level' ->
      crow.toSystemdLevel level <= crow.toSystemdLevel level')
  /\ (crow.Info <= level -> crow.toSystemdLevel level = 6)
  /\ (level < crow.Critical -> crow.toSystemdLevel level = 6).
Proof.
  rewrite !toSystemdLevel_cases.
  unfold crow.Critical, crow.Error, crow.Warning, crow.Info.
  destruct (Z.eqb_spec level 1); destruct (Z.eqb_spec level 2);
    destruct (Z.eqb_spec level 3);
    destruct (Z.eqb_spec level' 1); destruct (Z.eqb_spec level' 2);
    destruct (Z.eqb_spec level' 3);
    simpl; repeat split; intros; try lia; auto 6.
Qed.

(** Error to Debug: 3 is at most 6. *)
Lemma priority_range_and_order_witness :
  crow.toSystemdLevel crow.Error <= crow.toSystemdLevel crow.Debug.
Proof.
  destruct (priority_range_and_order crow.Error crow.Debug) as (_ & H & _).
  apply H; discriminate.
Defined.

(** X8: name resolution always answers one of the seven enumerators, and
    it inverts the name table: a result other than Disabled is the index of
    the very name that was given, and every index of the table is the result
    for the name stored there. *)
Theorem name_resolution_inverts_table (name : string) (i : nat) :
  0 <= crow.getLogLevelFromName name <= 6
  /\ (crow.getLogLevelFromName name <> crow.Disabled ->
      nth_error crow.mapLogLevelFromName
        (Z.to_nat (crow.getLogLevelFromName name)) = Some name)
  /\ ((i < 7)%nat ->
      exists stored,
        nth_error crow.mapLogLevelFromName i = Some stored
        /\ crow.getLogLevelFromName stored = Z.of_nat i).
Proof.
  split; [| split].
  - unfold crow.getLogLevelFromName, crow.mapLogLevelFromName.
    cbn [crow.ranges_find].
    repeat match goal with
           | |- context [String.eqb ?a name] =>
               destruct (String.eqb a name);
               [unfold crow.static_cast_LogLevel; lia |]
           end.
    unfold crow.Disabled. lia.
  - unfold crow.getLogLevelFromName, crow.mapLogLevelFromName.
    cbn [crow.ranges_find].
    repeat match goal with
           | |- context [String.eqb ?a name] =>
               destruct (String.eqb_spec a name) as [<-|_];
               [intros _; reflexivity |]
           end.
    intros H. now contradiction H.
  - intros Hi.
    do 7 (destruct i as [|i]; [eexists; split; reflexivity |]). lia.
Qed.

(** The name [WARNING] and the index 5. *)
Lemma name_resolution_inverts_table_witness :
  nth_error crow.mapLogLevelFromName
    (Z.to_nat (crow.getLogLevelFromName "WARNING")) = Some "WARNING"
  /\ exists stored,
       nth_error crow.mapLogLevelFromName 5 = Some stored
       /\ crow.getLogLevelFromName stored = Z.of_nat 5.
Proof.
  destruct (name_resolution_inverts_table "WARNING" 5) as (_ & H1 & H2).
  split; [apply H1; discriminate | apply H2; lia].
Defined.

(** ** The two branches *)




(** ** The error-code adapter *)

(** X11: the error-code adapter appends exactly the text [what()] answers
    and never throws, so an error code passed to a [{}] field of a log call
    appears as that text: the line is the prefix, [what()] and a newline. *)
Theorem error_code_logged_as_what (GNUC : Z) (cfg : string)
  (lib : Format.library) (level : crow.LogLevel) (ec : error_code)
  (loc : crow.source_location) (p : crow.Process) (dir short out : string) :
  (threshold cfg p <? level) = false ->
  crow.file_name loc = dir ++ String "/" short ->
  StringView.contains "/" short = false ->
  fits_buffer GNUC
    (prefix_text (crow.toSystemdLevel level) short (crow.line loc))
    (crow.line loc) ->
  formatter_ErrorCodeType_format lib ec out = Ok (out ++ what ec)
  /\ vformat lib "{}" [ErrorCodeType ec] = Ok (what ec)
  /\ crow.vlog GNUC cfg lib level "{}" [ErrorCodeType ec] loc p
     = crow.Returned
         (set_stdout (after_read cfg p)
            (crow.stdout p
             ++ (prefix_text (crow.toSystemdLevel level) short (crow.line loc)
                 ++ what ec)
             ++ newline)).
Proof.
  intros H Hf Hs Hfit.
  assert (Ha : forall o, formatter_ErrorCodeType_format lib ec o
                         = Ok (o ++ what ec)).
  { intros o. unfold formatter_ErrorCodeType_format, std_format_to.
    now rewrite format_to_single. }
  assert (Hv : vformat lib "{}" [ErrorCodeType ec] = Ok (what ec)).
  { unfold vformat, Format.format. rewrite format_to_single.
    cbn [formatter]. apply Ha. }
  split; [apply Ha | split; [exact Hv |]].
  rewrite (vlog_accepted GNUC cfg lib level "{}" [ErrorCodeType ec] loc p
             dir short H Hf Hs).
  cbv zeta. rewrite Hv. now rewrite built_prefix_fits by exact Hfit.
Qed.

(** A connection error logged from [src/http.cpp]. *)
Lemma error_code_logged_as_what_witness :
  crow.vlog 13 "INFO" no_library crow.Error "{}"
    [ErrorCodeType {| what := "Connection refused [system:111]" |}]
    {| crow.file_name := "src/http.cpp"; crow.line := 77 |} crow.start
  = crow.Returned
      (set_stdout (after_read "INFO" crow.start)
         ("" ++ (prefix_text 3 "http.cpp" 77
                 ++ "Connection refused [system:111]")
             ++ newline)).
Proof.
  apply (proj2 (proj2
           (error_code_logged_as_what 13 "INFO" no_library crow.Error
              {| what := "Connection refused [system:111]" |}
              {| crow.file_name := "src/http.cpp"; crow.line := 77 |}
              crow.start "src" "http.cpp" ""
              eq_refl eq_refl eq_refl (or_introl eq_refl)))).
Defined.

(** ** Sequences of calls *)

Lemma append_empty_r (s : string) : s = s ++ "".
Proof. induction s as [|c s IH]; simpl; congruence. Qed.

Lemma threshold_after_read (cfg : string) (p : crow.Process) :
  threshold cfg (after_read cfg p) = threshold cfg p.
Proof.
  unfold threshold, after_read, crow.getBmcwebCurrentLoggingLevel.
  destruct (crow.static_level p) eqn:E; cbn; [now rewrite E | reflexivity].
Qed.

Lemma threshold_set_stdout (cfg : string) (p : crow.Process) (s : string) :
  threshold cfg (set_stdout p s) = threshold cfg p.
Proof.
  unfold threshold, set_stdout, crow.getBmcwebCurrentLoggingLevel. cbn.
  destruct (crow.static_level p); reflexivity.
Qed.

(** One operation keeps the threshold and only appends to [stdout]. *)
Lemma perform_keeps (GNUC : Z) (cfg : string) (lib : Format.library)
  (op : crow.Operation) (p : crow.Process) :
  let p' := crow.state_of (crow.perform GNUC cfg lib op p) in
  threshold cfg p' = threshold cfg p
  /\ exists added, crow.stdout p' = crow.stdout p ++ added.
Proof.
  assert (Hv : forall level format args loc,
            let p' := crow.state_of
                        (crow.vlog GNUC cfg lib level format args loc p) in
            threshold cfg p' = threshold cfg p
            /\ exists added, crow.stdout p' = crow.stdout p ++ added).
  { intros level format args loc.
    destruct (vlog_outcomes GNUC cfg lib level format args loc p)
      as [E|[(text & E)|E]]; cbv zeta in E |- *; rewrite E;
      cbn [crow.state_of].
    - split; [apply threshold_after_read |].
      exists "". rewrite stdout_after_read. apply append_empty_r.
    - split; [now rewrite threshold_set_stdout, threshold_after_read |].
      eexists. reflexivity.
    - split; [apply threshold_after_read |].
      exists "". rewrite stdout_after_read. apply append_empty_r. }
  destruct op; cbn [crow.perform];
    unfold crow.BMCWEB_LOG_CRITICAL, crow.BMCWEB_LOG_ERROR,
      crow.BMCWEB_LOG_WARNING, crow.BMCWEB_LOG_INFO, crow.BMCWEB_LOG_DEBUG;
    try apply Hv.
  cbv zeta. cbn [crow.state_of]. fold (after_read cfg p).
  split; [apply threshold_after_read |].
  exists "". rewrite stdout_after_read. apply append_empty_r.
Qed.

(** X12: over any sequence of log calls and threshold reads, started in any
    state of the process, the threshold every later call compares against is
    the one the first call read, and [stdout] only grows: what it held before
    the sequence is still there, unchanged, in front of what was added. *)
Theorem run_keeps_threshold_and_output (GNUC : Z) (cfg : string)
  (lib : Format.library) (ops : list crow.Operation) (p : crow.Process) :
  let p' := crow.state_of (crow.run GNUC cfg lib ops p) in
  threshold cfg p' = threshold cfg p
  /\ exists added, crow.stdout p' = crow.stdout p ++ added.
Proof.
  revert p; induction ops as [|op ops IH]; intros p; cbn [crow.run].
  - cbv zeta. cbn [crow.state_of]. split; [reflexivity |].
    exists "". apply append_empty_r.
  - pose proof (perform_keeps GNUC cfg lib op p) as Hp. cbv zeta in Hp.
    destruct (crow.perform GNUC cfg lib op p) as [p1|e p1|p1];
      cbn [crow.state_of] in Hp; try exact Hp.
    destruct Hp as (Ht & a1 & Ha1).
    destruct (IH p1) as (Ht' & a2 & Ha2). cbv zeta.
    split; [now rewrite Ht', Ht |].
    exists (a1 ++ a2). now rewrite Ha2, Ha1, append_assoc.
Qed.

(** ** More on what is written *)

(** X14: every line an entry point writes starts with the priority tag of
    its level and the opening bracket: [<2>[] for Critical, [<3>[] for
    Error, [<4>[] for Warning and [<6>[] for Info and for Debug; the rest of
    the line ends with the newline.  This holds on both branches, for every
    call that passes the level check from a path with a ['/'], whose
    formatting is contained, whose line number fits 32 bits and whose prefix
    is no longer than [INT_MAX]. *)
Theorem lines_start_with_priority_tag (GNUC : Z) (cfg : string)
  (lib : Format.library) (level : crow.LogLevel) (tag : string)
  (format : string) (args : list format_arg) (loc : crow.source_location)
  (p : crow.Process) (dir short : string) :
  In (level, tag)
    [ (crow.Critical, "<2>["); (crow.Error, "<3>["); (crow.Warning, "<4>[");
      (crow.Info, "<6>["); (crow.Debug, "<6>[") ] ->
  (threshold cfg p <? level) = false ->
  crow.file_name loc = dir ++ String "/" short ->
  StringView.contains "/" short = false ->
  contained (vformat lib format args) = true ->
  0 <= crow.line loc < 2 ^ 32 ->
  Z.of_nat (String.length
              (prefix_text (crow.toSystemdLevel level) short (crow.line loc)))
  <= INT_MAX ->
  exists rest,
    crow.vlog GNUC cfg lib level format args loc p
    = crow.Returned
        (set_stdout (after_read cfg p)
           (crow.stdout p ++ tag ++ rest ++ newline)).
Proof.
  intros Hin H Hf Hs Hc Hl Hn.
  rewrite (vlog_accepted GNUC cfg lib level format args loc p dir short
             H Hf Hs).
  cbv zeta.
  rewrite built_prefix_buffered
    by (destruct (Z.ltb_spec 12 GNUC); [now left | right; split; assumption]).
  assert (Hcut : exists tail,
             buffered GNUC
               (prefix_text (crow.toSystemdLevel level) short (crow.line loc))
             = tag ++ tail).
  { unfold buffered, prefix_text.
    simpl in Hin.
    destruct Hin as [E|[E|[E|[E|[E|[]]]]]]; injection E as <- <-;
      destruct (12 <? GNUC); cbn; eexists; reflexivity. }
  destruct Hcut as (tail & ->).
  destruct (vformat lib format args) as [m|[]]; try discriminate Hc.
  - exists (tail ++ m). now rewrite !append_assoc.
  - exists (tail ++ "Failed to format"). now rewrite !append_assoc.
Qed.

(** A Warning from [src/fan.cpp] on the older compiler. *)
Lemma lines_start_with_priority_tag_witness :
  exists rest,
    crow.vlog 12 "INFO" no_library crow.Warning "fan {} slow"
      [Std (IntArg 2)]
      {| crow.file_name := "src/fan.cpp"; crow.line := 310 |} crow.start
    = crow.Returned
        (set_stdout (after_read "INFO" crow.start)
           ("" ++ "<4>[" ++ rest ++ newline)).
Proof.
  refine (lines_start_with_priority_tag 12 "INFO" no_library crow.Warning
            "<4>[" "fan {} slow" [Std (IntArg 2)]
            {| crow.file_name := "src/fan.cpp"; crow.line := 310 |}
            crow.start "src" "fan.cpp" _ eq_refl eq_refl eq_refl eq_refl _ _).
  - simpl. auto.
  - simpl. lia.
  - discriminate.
Defined.
